(** * PyCharacterAI: the synchronous account facade

    A shallow embedding of [PyCharacterAI/methods/synchronous/account.py]
    (class [AccountMethods]) and the properties of its request/response
    mapping: which HTTP calls each operation issues, how the JSON answers
    are read, and which typed error each failure becomes. *)

From Stdlib Require Import String List ZArith Bool Lia.
Import ListNotations.
Set Warnings "-register-all".
Open Scope string_scope.
Open Scope Z_scope.

(** ** Python values that travel as JSON *)

(** A decoded JSON document, as [json.loads] and [Response.json()] build
    it.  A [dict] keeps its insertion order, so it is an association list
    (keys of a decoded document are distinct).  Numbers are the integers. *)
Inductive json : Type :=
| JNull
| JBool (b : bool)
| JNum (n : Z)
| JStr (s : string)
| JList (items : list json)
| JDict (fields : list (string * json)).

(** The Python class of a value, as it shows in error reports. *)
Inductive pytype : Type :=
| NoneType | PyBool | PyInt | PyStr | PyList | PyDict.

Definition type_of (v : json) : pytype :=
  match v with
  | JNull => NoneType
  | JBool _ => PyBool
  | JNum _ => PyInt
  | JStr _ => PyStr
  | JList _ => PyList
  | JDict _ => PyDict
  end.

(** [if s:] on a string: the empty string is the only false one. *)
Definition nonempty (s : string) : bool :=
  match s with
  | EmptyString => false
  | String _ _ => true
  end.

(** Python truth value of a JSON value ([if v:]). *)
Definition truthy (v : json) : bool :=
  match v with
  | JNull => false
  | JBool b => b
  | JNum n => negb (n =? 0)
  | JStr s => nonempty s
  | JList items => match items with [] => false | _ :: _ => true end
  | JDict fields => match fields with [] => false | _ :: _ => true end
  end.

(** [v is not None] *)
Definition is_not_None (v : json) : bool :=
  match v with
  | JNull => false
  | _ => true
  end.

(** [v == s] for a string literal [s]: only an equal string compares equal. *)
Definition eq_str (v : json) (s : string) : bool :=
  match v with
  | JStr t => String.eqb t s
  | _ => false
  end.

(** [a or b] on strings. *)
Definition str_or (a b : string) : string :=
  if nonempty a then a else b.

(** [len(s)] *)
Definition len (s : string) : Z := Z.of_nat (String.length s).

(** *** Dictionaries *)

(** [k in d] / the value behind [d[k]]. *)
Fixpoint dict_lookup (k : string) (d : list (string * json)) : option json :=
  match d with
  | [] => None
  | (k', v) :: rest => if String.eqb k k' then Some v else dict_lookup k rest
  end.

(** [d[k] = v]: an existing key keeps its place, a new key goes last. *)
Fixpoint dict_store (k : string) (v : json) (d : list (string * json))
  : list (string * json) :=
  match d with
  | [] => [(k, v)]
  | (k', v') :: rest =>
      if String.eqb k k' then (k', v) :: rest
      else (k', v') :: dict_store k v rest
  end.

(** [d.get(k, default)] on a dictionary. *)
Definition dict_get (k : string) (default : json) (d : list (string * json))
  : json :=
  match dict_lookup k d with
  | Some v => v
  | None => default
  end.

Definition keys (d : list (string * json)) : list string := map fst d.

(** ** Exceptions *)

(** The error taxonomy of [PyCharacterAI.exceptions], each with its
    message, and the built-in exceptions the facade can run into. *)
Inductive exn : Type :=
| FetchError (msg : string)
| EditError (msg : string)
| UpdateError (msg : string)
| CreateError (msg : string)
| SetError (msg : string)
| InvalidArgumentError (msg : string)
| DeleteError (msg : string)
| AttributeError (receiver : pytype) (attr : string)
| TypeError (receiver : pytype)
| RequesterError (detail : string).

(** ** The collaborators *)

(** The text [json.dumps] gives for a document; the constructor stands for
    the serializer, which is one-to-one on documents. *)
Inductive wire : Type :=
| json_dumps (doc : json).

(** The [options] of [Requester.request]: [method] is absent for the
    fetches (the Requester then issues a GET), [body] is absent or
    [None] when nothing is sent. *)
Record Options : Type := {
  method : option string;
  headers : list (string * string);
  body : option wire
}.

Record Request : Type := {
  url : string;
  options : Options
}.

(** What [Requester.request] returns: [status_code] and the decoded
    [json()].  *)
Record Response : Type := {
  status_code : Z;
  json_body : json
}.

(** Modelled from the spec: the Requester ([PyCharacterAI/requester.py]
    is not among the sources).  It performs one HTTP call and returns a
    status code plus a JSON body, or fails on its own (transport); the
    remote side may change with every call. *)
Class Requester : Type := {
  World : Type;
  respond : World -> Request -> (string + Response) * World
}.

(** Modelled from the spec: the Client, which supplies the request
    headers (authentication) and the current account id. *)
Class Client : Type := {
  get_headers : list (string * string);
  get_account_id : string
}.

(** Modelled from the spec: the value objects of [PyCharacterAI/types],
    which is not among the sources; each is built from a raw JSON item.
    Of a persona the facade reads the attributes [name], [definition],
    [author_username] and [avatar] ([None] when there is none), and of an
    avatar [get_file_name()].  With them comes [format], the text Python
    puts for a decoded value inside an f-string. *)
Class Types : Type := {
  Account : Type;
  new_Account : json -> Account;
  CharacterShort : Type;
  new_CharacterShort : json -> CharacterShort;
  Voice : Type;
  new_Voice : json -> Voice;
  Avatar : Type;
  get_file_name : Avatar -> string;
  Persona : Type;
  new_Persona : json -> Persona;
  Persona_name : Persona -> string;
  Persona_definition : Persona -> string;
  Persona_author_username : Persona -> string;
  Persona_avatar : Persona -> option Avatar;
  format : json -> string
}.

(** ** Running the facade *)

Section Facade.

Context {R : Requester} {C : Client} {T : Types}.

(** The remote side and the calls made on the Requester so far. *)
Record State : Type := {
  world : World;
  calls : list Request
}.

(** A method either returns or raises, and leaves a state behind. *)
Definition M (A : Type) : Type := State -> (exn + A) * State.

Definition ret {A} (a : A) : M A := fun st => (inr a, st).

Definition raise {A} (e : exn) : M A := fun st => (inl e, st).

Definition bind {A B} (m : M A) (k : A -> M B) : M B :=
  fun st =>
    match m st with
    | (inr a, st') => k a st'
    | (inl e, st') => (inl e, st')
    end.

(** [try: m except Exception: raise e] *)
Definition try_except {A} (m : M A) (e : exn) : M A :=
  fun st =>
    match m st with
    | (inr a, st') => (inr a, st')
    | (inl _, st') => (inl e, st')
    end.

Notation "x <- m ;; k" := (bind m (fun x => k))
  (at level 61, m at next level, right associativity).

(** [self.__requester.request(url=..., options=...)] *)
Definition request (u : string) (o : Options) : M Response :=
  fun st =>
    let rq := {| url := u; options := o |} in
    let '(answer, w) := respond (world st) rq in
    let st' := {| world := w; calls := (calls st ++ [rq])%list |} in
    match answer with
    | inr response => (inr response, st')
    | inl detail => (inl (RequesterError detail), st')
    end.

(** [v.get(k, default)]: only a dict has the method. *)
Definition get (v : json) (k : string) (default : json) : M json :=
  match v with
  | JDict d => ret (dict_get k default d)
  | _ => raise (AttributeError (type_of v) "get")
  end.

(** [v[k] = x] with a string key: only a dict takes it. *)
Definition setitem (v : json) (k : string) (x : json) : M json :=
  match v with
  | JDict d => ret (JDict (dict_store k x d))
  | _ => raise (TypeError (type_of v))
  end.

(** The characters of a string, each a string of its own. *)
Fixpoint chars (s : string) : list json :=
  match s with
  | EmptyString => []
  | String c rest => JStr (String c EmptyString) :: chars rest
  end.

(** [for item in v]: a list gives its items, a dict its keys, a string its
    characters; nothing else can be iterated. *)
Definition iterate (v : json) : M (list json) :=
  match v with
  | JList items => ret items
  | JDict d => ret (map JStr (keys d))
  | JStr s => ret (chars s)
  | _ => raise (TypeError (type_of v))
  end.

(** The options of a fetch: the headers only. *)
Definition fetch_options : Options :=
  {| method := None; headers := get_headers; body := None |}.

Definition post_options (b : option wire) : Options :=
  {| method := Some "POST"; headers := get_headers; body := b |}.

Definition fetch_me : M Account :=
  request <- request "https://plus.character.ai/chat/user/" fetch_options ;;
  if status_code request =? 200 then
    user <- get (json_body request) "user" JNull ;;
    user' <- get user "user" JNull ;;
    ret (new_Account user')
  else raise (FetchError "Cannot fetch your account.").

Definition fetch_my_settings : M json :=
  request <- request "https://plus.character.ai/chat/user/settings/"
               fetch_options ;;
  if status_code request =? 200 then ret (json_body request)
  else raise (FetchError "Cannot fetch your settings.").

Definition fetch_my_followers : M json :=
  request <- request "https://plus.character.ai/chat/user/followers/"
               fetch_options ;;
  if status_code request =? 200 then
    get (json_body request) "followers" (JList [])
  else raise (FetchError "Cannot fetch your followers.").

Definition fetch_my_following : M json :=
  request <- request "https://plus.character.ai/chat/user/following/"
               fetch_options ;;
  if status_code request =? 200 then
    get (json_body request) "following" (JList [])
  else raise (FetchError "Cannot fetch your following.").

Definition fetch_my_persona (persona_id : string) : M Persona :=
  request <- request ("https://plus.character.ai/chat/persona/?id="
                        ++ persona_id) fetch_options ;;
  if status_code request =? 200 then
    persona <- get (json_body request) "persona" JNull ;;
    if truthy persona then ret (new_Persona persona)
    else raise (FetchError
           "Cannot fetch your persona. Maybe persona does not exist?")
  else raise (FetchError
         "Cannot fetch your persona. Maybe persona does not exist?").

Definition fetch_my_personas : M (list Persona) :=
  request <- request "https://plus.character.ai/chat/personas/?force_refresh=1"
               fetch_options ;;
  if status_code request =? 200 then
    raw_personas <- get (json_body request) "personas" (JList []) ;;
    raw_personas <- iterate raw_personas ;;
    ret (map new_Persona raw_personas)
  else raise (FetchError "Cannot fetch your personas.").

Definition fetch_my_characters : M (list CharacterShort) :=
  request <- request "https://plus.character.ai/chat/characters/?scope=user"
               fetch_options ;;
  if status_code request =? 200 then
    raw_characters <- get (json_body request) "characters" (JList []) ;;
    raw_characters <- iterate raw_characters ;;
    ret (map new_CharacterShort raw_characters)
  else raise (FetchError "Cannot fetch your characters.").

Definition fetch_my_upvoted_characters : M (list CharacterShort) :=
  request <- request "https://plus.character.ai/chat/user/characters/upvoted/"
               fetch_options ;;
  if status_code request =? 200 then
    characters_raw <- get (json_body request) "characters" (JList []) ;;
    characters_raw <- iterate characters_raw ;;
    ret (map new_CharacterShort characters_raw)
  else raise (FetchError "Cannot fetch your upvoted characters.").

Definition fetch_my_voices : M (list Voice) :=
  request <- request "https://neo.character.ai/multimodal/api/v1/voices/user"
               fetch_options ;;
  if status_code request =? 200 then
    raw_voices <- get (json_body request) "voices" (JList []) ;;
    raw_voices <- iterate raw_voices ;;
    ret (map new_Voice raw_voices)
  else raise (FetchError "Cannot fetch your voices.").

(** The [options] dictionary of [__update_settings], read with
    [options.get(key, None)]: a missing key and [None] are the same. *)
Record SettingsOptions : Type := {
  default_persona_id : option string;
  persona_override : option string;
  voice_override : option string;
  character_id : option string
}.

Definition is_None {A} (o : option A) : bool :=
  match o with
  | None => true
  | Some _ => false
  end.

Definition __update_settings (options : SettingsOptions) : M json :=
  if is_None (default_persona_id options)
     && is_None (persona_override options)
     && is_None (voice_override options)
  then raise (UpdateError "Cannot update account settings.")
  else
    settings <- fetch_my_settings ;;
    settings <- match default_persona_id options with
                | Some id => setitem settings "default_persona_id" (JStr id)
                | None => ret settings
                end ;;
    settings <- match persona_override options, character_id options with
                | Some persona, Some character =>
                    persona_overrides <-
                      get settings "personaOverrides" (JDict []) ;;
                    persona_overrides <-
                      setitem persona_overrides character (JStr persona) ;;
                    setitem settings "personaOverrides" persona_overrides
                | _, _ => ret settings
                end ;;
    request <- request "https://plus.character.ai/chat/user/update_settings/"
                 (post_options (Some (json_dumps settings))) ;;
    if status_code request =? 200 then
      let response := json_body request in
      success <- get response "success" (JBool false) ;;
      if truthy success then get response "settings" JNull
      else raise (UpdateError "Cannot update account settings.")
    else raise (UpdateError "Cannot update account settings.").

Definition edit_account (name username bio avatar_rel_path : string)
  : M bool :=
  if (len username <? 2) || (len name >? 20) then
    raise (InvalidArgumentError
      ("Cannot edit account info. "
       ++ "Username must be at least 2 characters and no more than 20."))
  else if (len name <? 2) || (len name >? 50) then
    raise (InvalidArgumentError
      ("Cannot edit account info. "
       ++ "Name must be at least 2 characters and no more than 50."))
  else if len bio >? 500 then
    raise (InvalidArgumentError
      ("Cannot edit account info. "
       ++ "Bio must be no more than 500 characters."))
  else
    let new_account_info :=
      [ ("avatar_type",
         JStr (if nonempty avatar_rel_path then "UPLOADED" else "DEFAULT"));
        ("bio", JStr bio);
        ("name", JStr name);
        ("username", JStr username) ] in
    let new_account_info :=
      if nonempty avatar_rel_path
      then dict_store "avatar_rel_path" (JStr avatar_rel_path) new_account_info
      else new_account_info in
    request <- request "https://plus.character.ai/chat/user/update/"
                 (post_options (Some (json_dumps (JDict new_account_info)))) ;;
    if status_code request =? 200 then
      status <- get (json_body request) "status" (JStr EmptyString) ;;
      if eq_str status "OK" then ret true
      else raise (EditError ("Cannot edit account info. " ++ format status))
    else raise (EditError "Cannot edit account info.").

(** [old_persona.avatar.get_file_name()] if there is an avatar, else the
    empty string *)
Definition avatar_file_name (old_persona : Persona) : string :=
  match Persona_avatar old_persona with
  | Some a => get_file_name a
  | None => EmptyString
  end.

(** [response.get("status", None) == "OK" and
     response.get("persona", None) is not None] *)
Definition status_ok_with_persona (response : json) : M bool :=
  status <- get response "status" JNull ;;
  if eq_str status "OK" then
    persona <- get response "persona" JNull ;;
    ret (is_not_None persona)
  else ret false.

(** [create_persona]; [uuid] is the text of the identifier that
    [uuid.uuid4()] draws for the call. *)
Definition create_persona (uuid : string)
    (name definition avatar_rel_path : string) : M Persona :=
  if (len name <? 3) || (len name >? 20) then
    raise (InvalidArgumentError
      ("Cannot create persona. "
       ++ "Name must be at least 3 characters and no more than 20."))
  else if nonempty definition && (len definition >? 728) then
    raise (InvalidArgumentError
      ("Cannot create persona. "
       ++ "Definition must be no more than 728 characters."))
  else
    request <- request "https://plus.character.ai/chat/character/create/"
      (post_options (Some (json_dumps (JDict
         [ ("avatar_file_name", JStr EmptyString);
           ("avatar_rel_path", JStr avatar_rel_path);
           ("base_img_prompt", JStr EmptyString);
           ("categories", JList []);
           ("copyable", JBool false);
           ("definition", JStr definition);
           ("description", JStr "This is my persona.");
           ("greeting", JStr "Hello! This is my persona");
           ("identifier", JStr ("id:" ++ uuid));
           ("img_gen_enabled", JBool false);
           ("name", JStr name);
           ("strip_img_prompt_from_msg", JBool false);
           ("title", JStr name);
           ("visibility", JStr "PRIVATE");
           ("voice_id", JStr EmptyString) ])))) ;;
    if status_code request =? 200 then
      let response := json_body request in
      ok <- status_ok_with_persona response ;;
      if ok then
        persona <- get response "persona" JNull ;;
        ret (new_Persona persona)
      else
        error <- get response "error" (JStr EmptyString) ;;
        raise (CreateError ("Cannot create persona. " ++ format error))
    else raise (CreateError "Cannot create persona.").

Definition edit_persona_payload (old_persona : Persona)
    (persona_id name definition avatar_rel_path : string)
  : list (string * json) :=
  let payload :=
    [ ("avatar_file_name", JStr (avatar_file_name old_persona));
      ("avatar_rel_path", JStr (avatar_file_name old_persona));
      ("copyable", JBool false);
      ("default_voice_id", JStr EmptyString);
      ("definition", JStr (str_or definition (Persona_definition old_persona)));
      ("description", JStr "This is my persona.");
      ("enabled", JBool false);
      ("external_id", JStr persona_id);
      ("greeting", JStr "Hello! This is my persona");
      ("img_gen_enabled", JBool false);
      ("is_persona", JBool true);
      ("name", JStr (str_or name (Persona_name old_persona)));
      ("participant__name", JStr (str_or name (Persona_name old_persona)));
      ("participant__num_interactions", JNum 0);
      ("title", JStr name);
      ("user__id", JStr get_account_id);
      ("user__username", JStr (Persona_author_username old_persona));
      ("visibility", JStr "PRIVATE") ] in
  if nonempty avatar_rel_path then
    dict_store "avatar_rel_path" (JStr avatar_rel_path)
      (dict_store "avatar_file_name" (JStr avatar_rel_path) payload)
  else payload.

Definition edit_persona (persona_id name definition avatar_rel_path : string)
  : M Persona :=
  if nonempty name && ((len name <? 3) || (len name >? 20)) then
    raise (InvalidArgumentError
      ("Cannot edit persona. "
       ++ "Name must be at least 3 characters and no more than 20."))
  else if nonempty definition && (len definition >? 728) then
    raise (InvalidArgumentError
      ("Cannot edit persona. "
       ++ "Definition must be no more than 728 characters."))
  else
    old_persona <- try_except (fetch_my_persona persona_id)
      (EditError "Cannot edit persona. May be persona does not exist?") ;;
    let payload :=
      edit_persona_payload old_persona persona_id name definition
        avatar_rel_path in
    request <- request "https://plus.character.ai/chat/persona/update/"
                 (post_options (Some (json_dumps (JDict payload)))) ;;
    if status_code request =? 200 then
      let response := json_body request in
      ok <- status_ok_with_persona response ;;
      if ok then
        persona <- get response "persona" JNull ;;
        ret (new_Persona persona)
      else
        error <- get response "error" (JStr EmptyString) ;;
        raise (EditError ("Cannot edit persona. " ++ format error))
    else raise (EditError "Cannot edit persona.").

Definition delete_persona_payload (old_persona : Persona)
    (persona_id : string) : list (string * json) :=
  [ ("archived", JBool true);
    ("avatar_file_name", JStr (avatar_file_name old_persona));
    ("copyable", JBool false);
    ("default_voice_id", JStr EmptyString);
    ("definition", JStr (Persona_definition old_persona));
    ("description", JStr "This is my persona.");
    ("external_id", JStr persona_id);
    ("greeting", JStr "Hello! This is my persona");
    ("img_gen_enabled", JBool false);
    ("is_persona", JBool true);
    ("name", JStr (Persona_name old_persona));
    ("participant__name", JStr (Persona_name old_persona));
    ("participant__num_interactions", JNum 0);
    ("title", JStr (Persona_name old_persona));
    ("user__id", JStr get_account_id);
    ("user__username", JStr (Persona_author_username old_persona));
    ("visibility", JStr "PRIVATE") ].

Definition delete_persona (persona_id : string) : M bool :=
  old_persona <- try_except (fetch_my_persona persona_id)
    (DeleteError "Cannot delete persona. May be persona does not exist?") ;;
  let payload := delete_persona_payload old_persona persona_id in
  request <- request "https://plus.character.ai/chat/persona/update/"
               (post_options (Some (json_dumps (JDict payload)))) ;;
  if status_code request =? 200 then
    let response := json_body request in
    ok <- status_ok_with_persona response ;;
    if ok then ret true
    else
      error <- get response "error" (JStr EmptyString) ;;
      raise (DeleteError ("Cannot delete persona. " ++ format error))
  else raise (DeleteError "Cannot delete persona.").

(** [if persona_id is None:] the empty string takes its place *)
Definition or_empty (persona_id : option string) : string :=
  match persona_id with
  | None => EmptyString
  | Some id => id
  end.

Definition set_default_persona (persona_id : option string) : M bool :=
  try_except
    (let persona_id := or_empty persona_id in
     _ <- __update_settings
            {| default_persona_id := Some persona_id;
               persona_override := None;
               voice_override := None;
               character_id := None |} ;;
     ret true)
    (SetError "Cannot set default persona.").

Definition unset_default_persona : M bool :=
  set_default_persona None.

Definition set_persona (character_id : string) (persona_id : option string)
  : M bool :=
  try_except
    (let persona_id := or_empty persona_id in
     _ <- __update_settings
            {| default_persona_id := None;
               persona_override := Some persona_id;
               voice_override := None;
               character_id := Some character_id |} ;;
     ret true)
    (SetError "Cannot set persona.").

Definition unset_persona (character_id : string) : M bool :=
  set_persona character_id None.

(** [if voice_id:] on a string or [None] *)
Definition given (voice_id : option string) : bool :=
  match voice_id with
  | Some id => nonempty id
  | None => false
  end.

Definition set_voice (character_id : string) (voice_id : option string)
  : M bool :=
  let method := if given voice_id then "update" else "delete" in
  request <- request
    ("https://plus.character.ai/chat/character/" ++ character_id
       ++ "/voice_override/" ++ method ++ "/")
    (post_options
       (if given voice_id
        then Some (json_dumps (JDict [("voice_id", JStr (or_empty voice_id))]))
        else None)) ;;
  if status_code request =? 200 then
    success <- get (json_body request) "success" (JBool false) ;;
    if truthy success then ret true
    else raise (SetError "Cannot set voice.")
  else raise (SetError "Cannot set voice.").

Definition unset_voice (character_id : string) : M bool :=
  set_voice character_id None.

(** Running a method from a remote state, with no call made yet. *)
Definition run {A} (m : M A) (w : World) : (exn + A) * State :=
  m {| world := w; calls := [] |}.

End Facade.

Notation "x <- m ;; k" := (bind m (fun x => k))
  (at level 61, m at next level, right associativity).

(** ** Test doubles *)

(** The doubles a unit test of the facade plugs in: a Requester that
    plays a script of answers (and fails once the script is over), a
    Requester that keeps the settings it is sent, a fixed Client, and
    plain value objects. *)
Module Double.

Definition token : list (string * string) :=
  [("Authorization", "Token 0123")].

#[export] Instance client : Client :=
  {| get_headers := token; get_account_id := "42" |}.

Definition scripted_respond (script : list (string + Response))
    (rq : Request) : (string + Response) * list (string + Response) :=
  match script with
  | [] => (inl "no answer left", [])
  | answer :: rest => (answer, rest)
  end.

Definition scripted : Requester :=
  {| World := list (string + Response); respond := scripted_respond |}.

(** The state before the first call, on a script. *)
Definition start (script : list (string + Response)) : @State scripted :=
  @Build_State scripted script [].

Definition ok (doc : json) : string + Response :=
  inr {| status_code := 200; json_body := doc |}.

Definition status (code : Z) : string + Response :=
  inr {| status_code := code; json_body := JDict [] |}.

Definition success (flag : json) : string + Response :=
  ok (JDict [("success", flag)]).

(** A server that holds the account settings: it hands them out on the
    settings path, stores what is posted to the update path and answers
    with [success] and the stored settings; any other call is a 404. *)
Definition settings_respond (stored : json) (rq : Request)
  : (string + Response) * json :=
  if String.eqb (url rq) "https://plus.character.ai/chat/user/settings/"
  then (ok stored, stored)
  else if String.eqb (url rq)
            "https://plus.character.ai/chat/user/update_settings/"
  then match body (options rq) with
       | Some (json_dumps doc) =>
           (ok (JDict [("success", JBool true); ("settings", doc)]), doc)
       | None => (status 400, stored)
       end
  else (status 404, stored).

Definition settings_server : Requester :=
  {| World := json; respond := settings_respond |}.

(** The state before the first call, on a server holding settings. *)
Definition serving (stored : json) : @State settings_server :=
  @Build_State settings_server stored [].

Record persona : Type := {
  persona_name : string;
  persona_definition : string;
  persona_author : string;
  persona_avatar : option string
}.

Definition str_field (k : string) (raw : json) : string :=
  match raw with
  | JDict d => match dict_lookup k d with
               | Some (JStr s) => s
               | _ => EmptyString
               end
  | _ => EmptyString
  end.

Definition new_persona (raw : json) : persona :=
  {| persona_name := str_field "name" raw;
     persona_definition := str_field "definition" raw;
     persona_author := str_field "user__username" raw;
     persona_avatar :=
       if nonempty (str_field "avatar_file_name" raw)
       then Some (str_field "avatar_file_name" raw) else None |}.

Definition show (v : json) : string :=
  match v with
  | JStr s => s
  | JNull => "None"
  | JBool true => "True"
  | JBool false => "False"
  | _ => "..."
  end.

#[export] Instance types : Types :=
  {| Account := json; new_Account := fun raw => raw;
     CharacterShort := json; new_CharacterShort := fun raw => raw;
     Voice := json; new_Voice := fun raw => raw;
     Avatar := string; get_file_name := fun a => a;
     Persona := persona; new_Persona := new_persona;
     Persona_name := persona_name;
     Persona_definition := persona_definition;
     Persona_author_username := persona_author;
     Persona_avatar := persona_avatar;
     format := show |}.

(** Inputs of the tests. *)
Definition twenty_one : string := "aaaaaaaaaaaaaaaaaaaaa".

Definition sailor : json :=
  JDict [("external_id", JStr "p1");
         ("name", JStr "Al");
         ("title", JStr "Captain");
         ("definition", JStr "A sailor.");
         ("greeting", JStr "Ahoy!");
         ("avatar_file_name", JStr "al.png");
         ("user__username", JStr "me")].

(** The script of an edit or a delete that goes well: the persona is
    found, the update is taken. *)
Definition persona_then_ok : list (string + Response) :=
  [ok (JDict [("persona", sailor)]);
   ok (JDict [("status", JStr "OK"); ("persona", sailor)])].

Definition settings_p0 : json :=
  JDict [("default_persona_id", JStr "p0"); ("personaOverrides", JDict [])].

Definition settings_unset : json :=
  JDict [("default_persona_id", JStr "p0");
         ("personaOverrides", JDict [("c1", JStr EmptyString)])].

End Double.

(** * The vocabulary of the properties *)

Section Vocabulary.

Context {R : Requester} {C : Client} {T : Types}.

Definition fetch_request (u : string) : Request :=
  {| url := u; options := fetch_options |}.

Definition post_request (u : string) (b : option wire) : Request :=
  {| url := u; options := post_options b |}.

(** The state a call leaves: the remote side moved on, the call logged. *)
Definition after (st : State) (rq : Request) (w : World) : State :=
  {| world := w; calls := (calls st ++ [rq])%list |}.

(** The remote side answers the GET of a fetch. *)
Definition answers (w : World) (u : string) (r : Response) (w' : World)
  : Prop :=
  respond w (fetch_request u) = (inr r, w').

(** The state after the single call of a fetch. *)
Definition fetched (u : string) (w' : World) : State :=
  {| world := w'; calls := [fetch_request u] |}.




Definition settings_url : string :=
  "https://plus.character.ai/chat/user/settings/".

Definition update_settings_url : string :=
  "https://plus.character.ai/chat/user/update_settings/".

(** The modify step of [__update_settings] on the fetched dictionary:
    [None] where the item assignment on [personaOverrides] is refused
    because the value found there is no dictionary. *)
Definition patch (options : SettingsOptions) (d : list (string * json))
  : option (list (string * json)) :=
  let d1 := match default_persona_id options with
            | Some id => dict_store "default_persona_id" (JStr id) d
            | None => d
            end in
  match persona_override options, character_id options with
  | Some persona, Some character =>
      match dict_get "personaOverrides" (JDict []) d1 with
      | JDict overrides =>
          Some (dict_store "personaOverrides"
                  (JDict (dict_store character (JStr persona) overrides)) d1)
      | _ => None
      end
  | _, _ => Some d1
  end.

(** How [__update_settings] reads the answer to its POST. *)
Definition update_reply (a : Response) : exn + json :=
  if status_code a =? 200 then
    match json_body a with
    | JDict response =>
        if truthy (dict_get "success" (JBool false) response)
        then inr (dict_get "settings" JNull response)
        else inl (UpdateError "Cannot update account settings.")
    | other => inl (AttributeError (type_of other) "get")
    end
  else inl (UpdateError "Cannot update account settings.").

Definition something_to_update (options : SettingsOptions) : bool :=
  negb (is_None (default_persona_id options)
        && is_None (persona_override options)
        && is_None (voice_override options)).

(** The overrides a settings dictionary holds: none when the key is
    missing. *)
Definition overrides_of (d : list (string * json)) : list (string * json) :=
  match dict_lookup "personaOverrides" d with
  | Some (JDict overrides) => overrides
  | _ => []
  end.

(** [personaOverrides], when present, is a dictionary. *)
Definition overrides_well_formed (d : list (string * json)) : Prop :=
  forall v, dict_lookup "personaOverrides" d = Some v ->
            exists overrides, v = JDict overrides.

(** The server accepts a settings update: status 200 and a true
    [success] in the answer. *)
Definition accepted (a : Response) : Prop :=
  status_code a = 200
  /\ exists response,
       json_body a = JDict response
       /\ truthy (dict_get "success" (JBool false) response) = true.

Definition persona_update_url : string :=
  "https://plus.character.ai/chat/persona/update/".

(** The arguments pass the length checks of [edit_persona]. *)
Definition edit_persona_arguments_ok (name definition : string) : bool :=
  negb (nonempty name && ((len name <? 3) || (len name >? 20)))
  && negb (nonempty definition && (len definition >? 728)).

(** [status == "OK"] with a [persona] that is not null. *)
Definition ok_with_persona (response : list (string * json)) : bool :=
  eq_str (dict_get "status" JNull response) "OK"
  && is_not_None (dict_get "persona" JNull response).

(** How [edit_persona] reads the answer to its POST. *)
Definition edit_reply (a : Response) : exn + Persona :=
  if status_code a =? 200 then
    match json_body a with
    | JDict response =>
        if ok_with_persona response
        then inr (new_Persona (dict_get "persona" JNull response))
        else inl (EditError
               ("Cannot edit persona. "
                ++ format (dict_get "error" (JStr EmptyString) response)))
    | other => inl (AttributeError (type_of other) "get")
    end
  else inl (EditError "Cannot edit persona.").

(** How [delete_persona] reads the answer to its POST. *)
Definition delete_reply (a : Response) : exn + bool :=
  if status_code a =? 200 then
    match json_body a with
    | JDict response =>
        if ok_with_persona response then inr true
        else inl (DeleteError
               ("Cannot delete persona. "
                ++ format (dict_get "error" (JStr EmptyString) response)))
    | other => inl (AttributeError (type_of other) "get")
    end
  else inl (DeleteError "Cannot delete persona.").

(** The call [set_voice] makes. *)
Definition voice_request (character_id : string) (voice_id : option string)
  : Request :=
  if given voice_id then
    post_request
      ("https://plus.character.ai/chat/character/" ++ character_id
         ++ "/voice_override/update/")
      (Some (json_dumps (JDict [("voice_id", JStr (or_empty voice_id))])))
  else
    post_request
      ("https://plus.character.ai/chat/character/" ++ character_id
         ++ "/voice_override/delete/")
      None.

(** How [set_voice] reads the answer to its POST. *)
Definition voice_reply (a : Response) : exn + bool :=
  if status_code a =? 200 then
    match json_body a with
    | JDict response =>
        if truthy (dict_get "success" (JBool false) response) then inr true
        else inl (SetError "Cannot set voice.")
    | other => inl (AttributeError (type_of other) "get")
    end
  else inl (SetError "Cannot set voice.").

Definition update_url : string :=
  "https://plus.character.ai/chat/user/update/".

(** The first check of [edit_account] tests the length of [name] against
    20, not that of [username]; with the two checks after it, the call is
    refused exactly when this holds. *)
Definition edit_account_refuses (name username bio : string) : bool :=
  (len username <? 2) || (len name >? 20) || (len name <? 2)
  || (len bio >? 500).

Definition create_url : string :=
  "https://plus.character.ai/chat/character/create/".

(** How [edit_account] reads the answer to its POST. *)
Definition account_reply (a : Response) : exn + bool :=
  if status_code a =? 200 then
    match json_body a with
    | JDict response =>
        if eq_str (dict_get "status" (JStr EmptyString) response) "OK"
        then inr true
        else inl (EditError
               ("Cannot edit account info. "
                ++ format (dict_get "status" (JStr EmptyString) response)))
    | other => inl (AttributeError (type_of other) "get")
    end
  else inl (EditError "Cannot edit account info.").

(** How [create_persona] reads the answer to its POST. *)
Definition create_reply (a : Response) : exn + Persona :=
  if status_code a =? 200 then
    match json_body a with
    | JDict response =>
        if ok_with_persona response
        then inr (new_Persona (dict_get "persona" JNull response))
        else inl (CreateError
               ("Cannot create persona. "
                ++ format (dict_get "error" (JStr EmptyString) response)))
    | other => inl (AttributeError (type_of other) "get")
    end
  else inl (CreateError "Cannot create persona.").

(** The operation makes exactly this one call, however it ends. *)
Definition makes_one_call {A} (op : M A) (rq : Request) : Prop :=
  forall st, calls (snd (op st)) = (calls st ++ [rq])%list.

(** A value a [for] loop cannot run over. *)
Definition not_iterable (v : json) : bool :=
  match v with
  | JNull | JBool _ | JNum _ => true
  | _ => false
  end.

(** On a 200 whose [field] cannot be run over, the fetch ends in a
    [TypeError]. *)
Definition needs_iterable {A} (op : M (list A)) (u field : string) : Prop :=
  forall w r w' d v,
    answers w u r w' -> status_code r = 200 -> json_body r = JDict d ->
    dict_lookup field d = Some v -> not_iterable v = true ->
    run op w = (inl (TypeError (type_of v)), fetched u w').

(** The computation makes no call and leaves the remote side alone. *)
Definition quiet {A} (m : M A) : Prop :=
  forall st, snd (m st) = st.

(** Every call the computation adds to a log of calls with the property
    has the property. *)
Definition keeps {A} (P : Request -> Prop) (m : M A) : Prop :=
  forall st, Forall P (calls st) -> Forall P (calls (snd (m st))).

(** The computation adds at most [n] calls to the log, and drops none. *)
Definition at_most {A} (n : nat) (m : M A) : Prop :=
  forall st,
    exists new,
      calls (snd (m st)) = (calls st ++ new)%list /\ (length new <= n)%nat.

(** A call as the facade is meant to make them: with the Client's
    headers, and either a GET without a body or a POST. *)
Definition authenticated (rq : Request) : Prop :=
  headers (options rq) = get_headers
  /\ (method (options rq) = None /\ body (options rq) = None
      \/ method (options rq) = Some "POST").

End Vocabulary.

(** * Properties *)

(** ** Dictionaries *)

Lemma dict_lookup_store_same k v d :
  dict_lookup k (dict_store k v d) = Some v.
Proof.
  induction d as [|[k' v'] rest IH]; simpl.
  - now rewrite String.eqb_refl.
  - destruct (String.eqb k k') eqn:E; simpl; rewrite E; auto.
Qed.

Lemma dict_lookup_store_other k k' v d :
  k' <> k -> dict_lookup k' (dict_store k v d) = dict_lookup k' d.
Proof.
  intros Hne.
  induction d as [|[k0 v0] rest IH]; simpl.
  - destruct (String.eqb k' k) eqn:E; auto.
    apply String.eqb_eq in E. contradiction.
  - destruct (String.eqb k k0) eqn:E; simpl.
    + apply String.eqb_eq in E. subst k0.
      destruct (String.eqb k' k) eqn:E'; auto.
      apply String.eqb_eq in E'. contradiction.
    + now rewrite IH.
Qed.

(** Storing the value a key already has changes nothing, not even the
    order of the keys. *)
Lemma dict_store_same k v d :
  dict_lookup k d = Some v -> dict_store k v d = d.
Proof.
  induction d as [|[k' v'] rest IH]; simpl; [discriminate|].
  destruct (String.eqb k k') eqn:E.
  - now intros [= ->].
  - intros H. now rewrite IH.
Qed.

Lemma dict_store_twice k v d :
  dict_store k v (dict_store k v d) = dict_store k v d.
Proof.
  apply dict_store_same, dict_lookup_store_same.
Qed.

Lemma dict_get_found k default d v :
  dict_lookup k d = Some v -> dict_get k default d = v.
Proof. unfold dict_get. now intros ->. Qed.

Lemma dict_get_missing k default d :
  dict_lookup k d = None -> dict_get k default d = default.
Proof. unfold dict_get. now intros ->. Qed.

(** ** One call on the Requester *)

Section Calls.

Context {R : Requester} {C : Client} {T : Types}.

Lemma request_answered u o st response w :
  respond (world st) {| url := u; options := o |} = (inr response, w) ->
  request u o st = (inr response, after st {| url := u; options := o |} w).
Proof. unfold request. now intros ->. Qed.

Lemma request_failed u o st detail w :
  respond (world st) {| url := u; options := o |} = (inl detail, w) ->
  request u o st
  = (inl (RequesterError detail), after st {| url := u; options := o |} w).
Proof. unfold request. now intros ->. Qed.

(** Whatever the answer, a request logs exactly itself. *)
Lemma request_logged u o st :
  calls (snd (request u o st))
  = (calls st ++ [{| url := u; options := o |}])%list.
Proof.
  unfold request.
  destruct (respond (world st) {| url := u; options := o |}) as [[d|r] w];
    reflexivity.
Qed.

End Calls.

(** Steps of a run: the call is answered; the status is, or is not, 200. *)
Ltac answered H :=
  unfold run, bind;
  rewrite (request_answered _ _ {| world := _; calls := [] |} _ _ H);
  unfold after; cbn [app calls].


Ltac is_200 :=
  match goal with
  | H200 : status_code ?r = 200, Hd : json_body ?r = _ |- _ =>
      rewrite H200, Hd; cbn [Z.eqb Pos.eqb get]; unfold bind, ret
  end.

(** ** The fetch operations *)

Section Fetch.

Context {R : Requester} {C : Client} {T : Types}.
























(** Every way [fetch_me] can end, by the answer to its call. *)
Lemma fetch_me_outcome w :
  fst (run fetch_me w)
  = match fst (respond w
                 (fetch_request "https://plus.character.ai/chat/user/")) with
    | inl detail => inl (RequesterError detail)
    | inr r =>
        if status_code r =? 200 then
          match json_body r with
          | JDict d =>
              match dict_get "user" JNull d with
              | JDict user => inr (new_Account (dict_get "user" JNull user))
              | other => inl (AttributeError (type_of other) "get")
              end
          | other => inl (AttributeError (type_of other) "get")
          end
        else inl (FetchError "Cannot fetch your account.")
    end.
Proof.
  unfold run, fetch_me, bind, request, fetch_request. cbn [world].
  destruct (respond w _) as [[detail|r] w']; cbn [fst]; [reflexivity|].
  destruct (status_code r =? 200); [|reflexivity].
  destruct (json_body r) as [| | | | |d]; try reflexivity.
  cbn [get]. unfold ret.
  destruct (dict_get "user" JNull d); reflexivity.
Qed.

(** C10.  When the answer to [fetch_me] has status 200 and a body
    without a [user] key, or with a null [user], [fetch_me] fails on the
    attribute access [None.get] and not with a [FetchError]; it raises
    [FetchError] only when the Requester answered with a status other
    than 200. *)
Theorem fetch_me_null_user :
  (forall w r w' d,
     answers w "https://plus.character.ai/chat/user/" r w' ->
     status_code r = 200 -> json_body r = JDict d ->
     dict_lookup "user" d = None \/ dict_lookup "user" d = Some JNull ->
     fst (run fetch_me w) = inl (AttributeError NoneType "get"))
  /\
  (forall w msg,
     fst (run fetch_me w) = inl (FetchError msg) ->
     exists r w',
       answers w "https://plus.character.ai/chat/user/" r w'
       /\ status_code r <> 200).
Proof.
  split.
  - intros w r w' d H H200 Hd Hu. rewrite fetch_me_outcome.
    unfold answers in H. rewrite H. cbn [fst]. rewrite H200, Hd.
    cbn [Z.eqb Pos.eqb].
    destruct Hu as [Hu|Hu].
    + now rewrite (dict_get_missing _ _ _ Hu).
    + now rewrite (dict_get_found _ _ _ _ Hu).
  - intros w msg. rewrite fetch_me_outcome. unfold answers.
    destruct (respond w _) as [[detail|r] w']; cbn [fst]; [discriminate|].
    destruct (Z.eqb_spec (status_code r) 200) as [E|E].
    + destruct (json_body r) as [| | | | |d]; try discriminate.
      destruct (dict_get "user" JNull d); discriminate.
    + intros _. now exists r, w'.
Qed.

End Fetch.

(** ** The settings update *)

Section Settings.

Context {R : Requester} {C : Client} {T : Types}.

Lemma fetch_my_settings_at st r w1 :
  respond (world st) (fetch_request settings_url) = (inr r, w1) ->
  status_code r = 200 ->
  fetch_my_settings st
  = (inr (json_body r), after st (fetch_request settings_url) w1).
Proof.
  intros H H200. unfold fetch_my_settings, bind.
  unfold settings_url, fetch_request in *.
  rewrite (request_answered _ _ _ _ _ H). now rewrite H200.
Qed.

(** The whole run of [__update_settings] once the settings are fetched:
    one POST of the patched settings, whose answer decides the result. *)
Lemma update_settings_run options st r w1 d d' :
  something_to_update options = true ->
  respond (world st) (fetch_request settings_url) = (inr r, w1) ->
  status_code r = 200 -> json_body r = JDict d ->
  patch options d = Some d' ->
  let post :=
    post_request update_settings_url (Some (json_dumps (JDict d'))) in
  let st1 := after st (fetch_request settings_url) w1 in
  __update_settings options st
  = match respond w1 post with
    | (inl detail, w2) => (inl (RequesterError detail), after st1 post w2)
    | (inr a, w2) => (update_reply a, after st1 post w2)
    end.
Proof.
  intros Hsome H H200 Hd Hp post st1.
  unfold __update_settings. unfold something_to_update in Hsome.
  apply negb_true_iff in Hsome. rewrite Hsome.
  unfold bind at 1. rewrite (fetch_my_settings_at _ _ _ H H200), Hd.
  fold st1. unfold patch in Hp.
  assert (Hpost :
    forall (k : Response -> M json) s,
      (forall a s', k a s' = (update_reply a, s')) ->
      world s = w1 -> calls s = calls st1 ->
      bind (request update_settings_url
              (post_options (Some (json_dumps (JDict d'))))) k s
      = match respond w1 post with
        | (inl detail, w2) =>
            (inl (RequesterError detail), after st1 post w2)
        | (inr a, w2) => (update_reply a, after st1 post w2)
        end).
  { intros k s Hk Hw Hc. unfold bind, request, post, post_request.
    rewrite Hw. destruct (respond w1 _) as [[detail|a] w2];
      unfold after; rewrite Hc; [reflexivity|]. now rewrite Hk. }
  assert (Hk : forall a s',
    (if status_code a =? 200
     then success <- get (json_body a) "success" (JBool false) ;;
          (if truthy success then get (json_body a) "settings" JNull
           else raise (UpdateError "Cannot update account settings."))
     else raise (UpdateError "Cannot update account settings.")) s'
    = (update_reply a, s')).
  { intros a s'. unfold update_reply.
    destruct (status_code a =? 200); [|reflexivity].
    destruct (json_body a) as [| | | | |x]; try reflexivity.
    unfold bind. cbn [get]. unfold ret.
    destruct (truthy (dict_get "success" (JBool false) x)); reflexivity. }
  destruct (default_persona_id options) as [id|];
    destruct (persona_override options) as [p|];
    destruct (character_id options) as [c|];
    cbn [setitem] in *; unfold bind at 1, ret;
    try (injection Hp as <-; now apply Hpost).
  - unfold bind at 1. cbn [get]. unfold ret.
    destruct (dict_get "personaOverrides" (JDict []) _) as [| | | | |o];
      try discriminate.
    injection Hp as <-. cbn [setitem]. unfold bind at 1, ret.
    unfold bind at 1, ret. now apply Hpost.
  - unfold bind at 1. cbn [get]. unfold ret.
    destruct (dict_get "personaOverrides" (JDict []) _) as [| | | | |o];
      try discriminate.
    injection Hp as <-. cbn [setitem]. unfold bind at 1, ret.
    now apply Hpost.
Qed.

Lemma patch_defined options d :
  overrides_well_formed d -> exists d', patch options d = Some d'.
Proof.
  intros Hwf. unfold patch.
  destruct (persona_override options) as [p|]; [|eauto].
  destruct (character_id options) as [c|]; [|eauto].
  unfold dict_get.
  assert (E : forall d1,
    dict_lookup "personaOverrides" d1 = dict_lookup "personaOverrides" d ->
    exists d',
      match match dict_lookup "personaOverrides" d1 with
            | Some v => v
            | None => JDict []
            end with
      | JDict overrides =>
          Some (dict_store "personaOverrides"
                  (JDict (dict_store c (JStr p) overrides)) d1)
      | _ => None
      end = Some d').
  { intros d1 ->.
    destruct (dict_lookup "personaOverrides" d) as [v|] eqn:E; [|eauto].
    destruct (Hwf v E) as [o ->]. eauto. }
  destruct (default_persona_id options) as [id|]; apply E; [|reflexivity].
  now apply dict_lookup_store_other.
Qed.

(** What the modify step changes, seen through the keys. *)
Lemma patch_spec options d d' :
  patch options d = Some d' ->
  (forall k, k <> "default_persona_id" -> k <> "personaOverrides" ->
             dict_lookup k d' = dict_lookup k d)
  /\ dict_lookup "default_persona_id" d'
     = match default_persona_id options with
       | Some id => Some (JStr id)
       | None => dict_lookup "default_persona_id" d
       end
  /\ match persona_override options, character_id options with
     | Some persona, Some character =>
         exists overrides,
           dict_lookup "personaOverrides" d' = Some (JDict overrides)
           /\ dict_lookup character overrides = Some (JStr persona)
           /\ forall other, other <> character ->
                dict_lookup other overrides
                = dict_lookup other (overrides_of d)
     | _, _ =>
         dict_lookup "personaOverrides" d'
         = dict_lookup "personaOverrides" d
     end.
Proof.
  unfold patch.
  set (d1 := match default_persona_id options with
             | Some id => dict_store "default_persona_id" (JStr id) d
             | None => d
             end).
  assert (H1 : forall k, k <> "default_persona_id" ->
                         dict_lookup k d1 = dict_lookup k d).
  { intros k Hk. unfold d1.
    destruct (default_persona_id options); [|reflexivity].
    now apply dict_lookup_store_other. }
  assert (H2 : dict_lookup "default_persona_id" d1
               = match default_persona_id options with
                 | Some id => Some (JStr id)
                 | None => dict_lookup "default_persona_id" d
                 end).
  { unfold d1. destruct (default_persona_id options); [|reflexivity].
    apply dict_lookup_store_same. }
  assert (Hpo : dict_lookup "personaOverrides" d1
                = dict_lookup "personaOverrides" d)
    by (apply H1; discriminate).
  clearbody d1.
  destruct (persona_override options) as [p|];
    [destruct (character_id options) as [c|]|];
    try (intros [= <-]; split;
         [intros k Hk _; now apply H1 | split; [exact H2 | exact Hpo]]).
  unfold dict_get. rewrite Hpo.
  assert (E : match dict_lookup "personaOverrides" d with
              | Some v => v
              | None => JDict []
              end = JDict (overrides_of d)
              \/ forall o, match dict_lookup "personaOverrides" d with
                           | Some v => v
                           | None => JDict []
                           end <> JDict o).
  { unfold overrides_of.
    destruct (dict_lookup "personaOverrides" d) as [[| | | | |o]|];
      (now left) || (right; discriminate). }
  destruct E as [-> | E].
  - intros [= <-]. split; [|split].
    + intros k Hk Hk'. rewrite dict_lookup_store_other by assumption.
      now apply H1.
    + rewrite dict_lookup_store_other by discriminate. exact H2.
    + eexists. split; [apply dict_lookup_store_same|]. split.
      * apply dict_lookup_store_same.
      * intros other Ho. now apply dict_lookup_store_other.
  - destruct (match dict_lookup "personaOverrides" d with
              | Some v => v
              | None => JDict []
              end) as [| | | | |o]; try discriminate.
    now destruct (E o).
Qed.

(** After the fetch, [__update_settings] makes exactly one more call. *)
Lemma update_settings_calls options st r w1 d d' :
  something_to_update options = true ->
  respond (world st) (fetch_request settings_url) = (inr r, w1) ->
  status_code r = 200 -> json_body r = JDict d ->
  patch options d = Some d' ->
  calls (snd (__update_settings options st))
  = (calls st
     ++ [fetch_request settings_url;
         post_request update_settings_url
           (Some (json_dumps (JDict d')))])%list.
Proof.
  intros Hsome H H200 Hd Hp.
  rewrite (update_settings_run _ _ _ _ _ _ Hsome H H200 Hd Hp).
  destruct (respond w1 _) as [[detail|a] w2]; cbn [snd after calls];
    now rewrite <- app_assoc.
Qed.

(** The setters leave the state of the settings update they wrap. *)
Lemma set_persona_state character persona st :
  snd (set_persona character persona st)
  = snd (__update_settings
           {| default_persona_id := None;
              persona_override := Some (or_empty persona);
              voice_override := None;
              character_id := Some character |} st).
Proof.
  unfold set_persona, try_except, bind.
  destruct (__update_settings _ st) as [[e|x] st']; reflexivity.
Qed.

(** C8.  Whenever [default_persona_id], [persona_override] and
    [voice_override] are all unset in its options, [__update_settings]
    raises [UpdateError] at once: the state is untouched, so neither the
    settings fetch nor the POST is issued. *)
Theorem update_settings_nothing_to_update options st :
  default_persona_id options = None ->
  persona_override options = None ->
  voice_override options = None ->
  __update_settings options st
  = (inl (UpdateError "Cannot update account settings."), st)
  /\ calls (snd (__update_settings options st)) = calls st.
Proof.
  intros Hdefault Hpersona Hvoice.
  assert (E : __update_settings options st
              = (inl (UpdateError "Cannot update account settings."), st)).
  { unfold __update_settings. now rewrite Hdefault, Hpersona, Hvoice. }
  split; [exact E|]. now rewrite E.
Qed.

(** C3.  The settings update is a read-modify-write: once the current
    settings are fetched, it POSTs the full settings dictionary back with
    only the provided fields overwritten ([default_persona_id] when
    given, and the entry of [character_id] inside [personaOverrides] when
    a persona override is given), every other key and every other
    character's override being as fetched.  In particular, on the
    settings [{default_persona_id: p0, personaOverrides: {}}] the
    override setter called with character [c1] and persona [p1] submits
    exactly [{default_persona_id: p0, personaOverrides: {c1: p1}}]. *)
Theorem update_settings_read_modify_write :
  (forall options w r w1 d,
     something_to_update options = true ->
     answers w settings_url r w1 ->
     status_code r = 200 -> json_body r = JDict d ->
     overrides_well_formed d ->
     exists d',
       calls (snd (run (__update_settings options) w))
       = [fetch_request settings_url;
          post_request update_settings_url (Some (json_dumps (JDict d')))]
       /\ (forall k, k <> "default_persona_id" -> k <> "personaOverrides" ->
                     dict_lookup k d' = dict_lookup k d)
       /\ dict_lookup "default_persona_id" d'
          = match default_persona_id options with
            | Some id => Some (JStr id)
            | None => dict_lookup "default_persona_id" d
            end
       /\ match persona_override options, character_id options with
          | Some persona, Some character =>
              exists overrides,
                dict_lookup "personaOverrides" d' = Some (JDict overrides)
                /\ dict_lookup character overrides = Some (JStr persona)
                /\ forall other, other <> character ->
                     dict_lookup other overrides
                     = dict_lookup other (overrides_of d)
          | _, _ =>
              dict_lookup "personaOverrides" d'
              = dict_lookup "personaOverrides" d
          end)
  /\
  (forall w r w1,
     answers w settings_url r w1 ->
     status_code r = 200 ->
     json_body r = JDict [("default_persona_id", JStr "p0");
                          ("personaOverrides", JDict [])] ->
     calls (snd (run (set_persona "c1" (Some "p1")) w))
     = [fetch_request settings_url;
        post_request update_settings_url
          (Some (json_dumps
             (JDict [("default_persona_id", JStr "p0");
                     ("personaOverrides", JDict [("c1", JStr "p1")])])))]).
Proof.
  split.
  - intros options w r w1 d Hsome H H200 Hd Hwf.
    destruct (patch_defined options d Hwf) as [d' Hp].
    exists d'. split; [|now apply patch_spec].
    unfold run.
    now rewrite (update_settings_calls _ {| world := w; calls := [] |}
                   _ _ _ _ Hsome H H200 Hd Hp).
  - intros w r w1 H H200 Hd. unfold run. rewrite set_persona_state.
    erewrite update_settings_calls;
      [reflexivity | reflexivity | exact H | exact H200 | exact Hd
      | reflexivity].
Qed.

Lemma accepted_reply a :
  accepted a -> exists settings, update_reply a = inr settings.
Proof.
  intros [H200 (x & Hx & Ht)]. unfold update_reply.
  rewrite H200, Hx, Ht. cbn [Z.eqb Pos.eqb]. eauto.
Qed.

(** On settings that already map the character to the empty string the
    modify step changes nothing. *)
Lemma patch_already_unset character d overrides :
  dict_lookup "personaOverrides" d = Some (JDict overrides) ->
  dict_lookup character overrides = Some (JStr EmptyString) ->
  patch {| default_persona_id := None;
           persona_override := Some EmptyString;
           voice_override := None;
           character_id := Some character |} d = Some d.
Proof.
  intros Ho Hc. unfold patch.
  cbn [default_persona_id persona_override character_id].
  rewrite (dict_get_found _ _ _ _ Ho).
  rewrite (dict_store_same _ _ _ Hc). now rewrite (dict_store_same _ _ _ Ho).
Qed.

(** One [unset_persona] on an already unset character: the fetched
    settings go back as they came, and an accepted update returns
    [True]. *)
Lemma unset_persona_already_unset character st r w1 d overrides a w2 :
  respond (world st) (fetch_request settings_url) = (inr r, w1) ->
  status_code r = 200 -> json_body r = JDict d ->
  dict_lookup "personaOverrides" d = Some (JDict overrides) ->
  dict_lookup character overrides = Some (JStr EmptyString) ->
  respond w1 (post_request update_settings_url
                (Some (json_dumps (JDict d)))) = (inr a, w2) ->
  accepted a ->
  unset_persona character st
  = (inr true,
     after (after st (fetch_request settings_url) w1)
       (post_request update_settings_url (Some (json_dumps (JDict d)))) w2).
Proof.
  intros H H200 Hd Ho Hc Hpost Ha.
  unfold unset_persona, set_persona, try_except, bind.
  cbn [or_empty].
  pose proof (update_settings_run
                {| default_persona_id := None;
                   persona_override := Some EmptyString;
                   voice_override := None;
                   character_id := Some character |}
                st r w1 d d eq_refl H H200 Hd
                (patch_already_unset _ _ _ Ho Hc)) as E.
  cbv zeta in E. rewrite E, Hpost.
  destruct (accepted_reply a Ha) as [x ->]. reflexivity.
Qed.

(** C9.  [unset_persona] is idempotent on an already unset character:
    when the settings fetched by a call and by its repetition already
    map the character to the empty string and the server accepts the
    updates, both calls return [True] and both submit exactly the same
    settings payload (the fetched settings, unchanged). *)
Theorem unset_persona_idempotent
    character w0 r1 w1 d overrides a1 w2 r2 w3 a2 w4 :
  let get_settings := fetch_request settings_url in
  let post_settings :=
    post_request update_settings_url (Some (json_dumps (JDict d))) in
  respond w0 get_settings = (inr r1, w1) ->
  status_code r1 = 200 -> json_body r1 = JDict d ->
  dict_lookup "personaOverrides" d = Some (JDict overrides) ->
  dict_lookup character overrides = Some (JStr EmptyString) ->
  respond w1 post_settings = (inr a1, w2) -> accepted a1 ->
  respond w2 get_settings = (inr r2, w3) ->
  status_code r2 = 200 -> json_body r2 = JDict d ->
  respond w3 post_settings = (inr a2, w4) -> accepted a2 ->
  run (first <- unset_persona character ;;
       second <- unset_persona character ;;
       ret (first, second)) w0
  = (inr (true, true),
     {| world := w4;
        calls := [get_settings; post_settings;
                  get_settings; post_settings] |}).
Proof.
  intros get_settings post_settings
    H1 H1s H1d Ho Hc P1 A1 H2 H2s H2d P2 A2.
  subst get_settings post_settings. unfold run, bind.
  rewrite (unset_persona_already_unset character
             {| world := w0; calls := [] |} _ _ _ _ _ _
             H1 H1s H1d Ho Hc P1 A1).
  rewrite (unset_persona_already_unset character
             (after (after {| world := w0; calls := [] |}
                       (fetch_request settings_url) w1)
                (post_request update_settings_url
                   (Some (json_dumps (JDict d)))) w2) _ _ _ _ _ _
             H2 H2s H2d Ho Hc P2 A2).
  reflexivity.
Qed.

(** What a setter makes of its settings update: [True] when the update
    returns, its own [SetError] whatever the update raised. *)
Lemma set_default_persona_run persona_id st :
  set_default_persona persona_id st
  = match __update_settings
            {| default_persona_id := Some (or_empty persona_id);
               persona_override := None;
               voice_override := None;
               character_id := None |} st with
    | (inr _, st') => (inr true, st')
    | (inl _, st') => (inl (SetError "Cannot set default persona."), st')
    end.
Proof.
  unfold set_default_persona, try_except, bind.
  destruct (__update_settings _ st) as [[e|x] st']; reflexivity.
Qed.

Lemma set_persona_run character persona_id st :
  set_persona character persona_id st
  = match __update_settings
            {| default_persona_id := None;
               persona_override := Some (or_empty persona_id);
               voice_override := None;
               character_id := Some character |} st with
    | (inr _, st') => (inr true, st')
    | (inl _, st') => (inl (SetError "Cannot set persona."), st')
    end.
Proof.
  unfold set_persona, try_except, bind.
  destruct (__update_settings _ st) as [[e|x] st']; reflexivity.
Qed.

End Settings.

(** ** Personas *)

Section Personas.

Context {R : Requester} {C : Client} {T : Types}.

Lemma status_ok_with_persona_dict response st :
  status_ok_with_persona (JDict response) st
  = (inr (ok_with_persona response), st).
Proof.
  unfold status_ok_with_persona, ok_with_persona, bind. cbn [get].
  unfold ret. now destruct (eq_str (dict_get "status" JNull response) "OK").
Qed.

(** A failed preliminary fetch ends [edit_persona] with its
    [EditError], whatever was raised. *)
Lemma edit_persona_fetch_failed persona_id name definition avatar_rel_path
    st e st1 :
  edit_persona_arguments_ok name definition = true ->
  fetch_my_persona persona_id st = (inl e, st1) ->
  edit_persona persona_id name definition avatar_rel_path st
  = (inl (EditError "Cannot edit persona. May be persona does not exist?"),
     st1).
Proof.
  unfold edit_persona_arguments_ok. intros Hok Hf.
  apply andb_true_iff in Hok as [Hn Hd].
  apply negb_true_iff in Hn, Hd.
  unfold edit_persona. rewrite Hn, Hd.
  unfold bind, try_except. now rewrite Hf.
Qed.

Lemma delete_persona_fetch_failed persona_id st e st1 :
  fetch_my_persona persona_id st = (inl e, st1) ->
  delete_persona persona_id st
  = (inl (DeleteError
            "Cannot delete persona. May be persona does not exist?"),
     st1).
Proof.
  intros Hf. unfold delete_persona, bind, try_except. now rewrite Hf.
Qed.

(** The run of [edit_persona] after a successful fetch: one POST of the
    payload, whose answer decides the result. *)
Lemma edit_persona_run persona_id name definition avatar_rel_path
    st old_persona st1 :
  edit_persona_arguments_ok name definition = true ->
  fetch_my_persona persona_id st = (inr old_persona, st1) ->
  let post :=
    post_request persona_update_url
      (Some (json_dumps (JDict
         (edit_persona_payload old_persona persona_id name definition
            avatar_rel_path)))) in
  edit_persona persona_id name definition avatar_rel_path st
  = match respond (world st1) post with
    | (inl detail, w2) => (inl (RequesterError detail), after st1 post w2)
    | (inr a, w2) => (edit_reply a, after st1 post w2)
    end.
Proof.
  intros Hok Hf post. unfold edit_persona_arguments_ok in Hok.
  apply andb_true_iff in Hok as [Hn Hd].
  apply negb_true_iff in Hn, Hd.
  unfold edit_persona. rewrite Hn, Hd.
  unfold bind at 1, try_except. rewrite Hf.
  unfold bind at 1, request. subst post.
  unfold post_request, persona_update_url.
  destruct (respond (world st1) _) as [[detail|a] w2]; [reflexivity|].
  unfold after, edit_reply.
  destruct (status_code a =? 200); [|reflexivity].
  destruct (json_body a) as [| | | | |x]; try reflexivity.
  unfold bind at 1. rewrite status_ok_with_persona_dict.
  destruct (ok_with_persona x); reflexivity.
Qed.

Lemma delete_persona_run persona_id st old_persona st1 :
  fetch_my_persona persona_id st = (inr old_persona, st1) ->
  let post :=
    post_request persona_update_url
      (Some (json_dumps (JDict
         (delete_persona_payload old_persona persona_id)))) in
  delete_persona persona_id st
  = match respond (world st1) post with
    | (inl detail, w2) => (inl (RequesterError detail), after st1 post w2)
    | (inr a, w2) => (delete_reply a, after st1 post w2)
    end.
Proof.
  intros Hf post. unfold delete_persona.
  unfold bind at 1, try_except. rewrite Hf.
  unfold bind at 1, request. subst post.
  unfold post_request, persona_update_url.
  destruct (respond (world st1) _) as [[detail|a] w2]; [reflexivity|].
  unfold after, delete_reply.
  destruct (status_code a =? 200); [|reflexivity].
  destruct (json_body a) as [| | | | |x]; try reflexivity.
  unfold bind at 1. rewrite status_ok_with_persona_dict.
  destruct (ok_with_persona x); reflexivity.
Qed.

(** C5.  When the preliminary fetch of an [edit_persona] call succeeds,
    the call POSTs a full-replacement payload in which [definition] and
    [name] are the arguments, or the old persona's values where the
    argument is empty; [avatar_file_name] and [avatar_rel_path] are both
    the new avatar path when one is given and both the old avatar's file
    name otherwise; and [title] is the raw [name] argument, empty or
    not, with no fallback. *)
Theorem edit_persona_merges
    persona_id name definition avatar_rel_path st old_persona st1 :
  edit_persona_arguments_ok name definition = true ->
  fetch_my_persona persona_id st = (inr old_persona, st1) ->
  exists payload,
    calls (snd (edit_persona persona_id name definition avatar_rel_path st))
    = (calls st1
       ++ [post_request persona_update_url
             (Some (json_dumps (JDict payload)))])%list
    /\ dict_lookup "definition" payload
       = Some (JStr (if nonempty definition then definition
                     else Persona_definition old_persona))
    /\ dict_lookup "name" payload
       = Some (JStr (if nonempty name then name
                     else Persona_name old_persona))
    /\ dict_lookup "title" payload = Some (JStr name)
    /\ (let old_file_name :=
          match Persona_avatar old_persona with
          | Some a => get_file_name a
          | None => EmptyString
          end in
        let file_name :=
          if nonempty avatar_rel_path then avatar_rel_path
          else old_file_name in
        dict_lookup "avatar_file_name" payload = Some (JStr file_name)
        /\ dict_lookup "avatar_rel_path" payload = Some (JStr file_name))
    /\ keys payload
       = ["avatar_file_name"; "avatar_rel_path"; "copyable";
          "default_voice_id"; "definition"; "description"; "enabled";
          "external_id"; "greeting"; "img_gen_enabled"; "is_persona";
          "name"; "participant__name"; "participant__num_interactions";
          "title"; "user__id"; "user__username"; "visibility"].
Proof.
  intros Hok Hf.
  exists (edit_persona_payload old_persona persona_id name definition
            avatar_rel_path).
  split.
  - rewrite (edit_persona_run _ _ _ _ _ _ _ Hok Hf).
    destruct (respond (world st1) _) as [[detail|a] w2]; reflexivity.
  - unfold edit_persona_payload, str_or, avatar_file_name.
    destruct (nonempty avatar_rel_path); repeat split; reflexivity.
Qed.

(** C4, as the code has it.  [delete_persona] first fetches the persona
    and raises [DeleteError] when that fetch raises.  Otherwise it POSTs
    to the persona update path exactly this payload: [archived] true;
    [avatar_file_name] the file name of the fetched persona's avatar,
    empty without one; [definition] and [user__username] the fetched
    persona's definition and author; [name], [participant__name] and
    [title] all three the fetched persona's name; [external_id] the
    [persona_id] argument; [user__id] the Client's account id; and the
    constants [copyable] false, [default_voice_id] empty, [description]
    and [greeting] the stock sentences, [img_gen_enabled] false,
    [is_persona] true, [participant__num_interactions] 0 and
    [visibility] PRIVATE.  Its keys are those of the [edit_persona]
    payload without [avatar_rel_path] and [enabled], after [archived].
    An answer with status 200 and an object body with [status] OK and a
    non-null [persona] makes it return [True]; a status other than 200,
    or a 200 with an object body without that, makes it raise
    [DeleteError]; a 200 whose body is no object makes it raise
    [AttributeError]. *)
Theorem delete_persona_archives :
  (forall persona_id st e st1,
     fetch_my_persona persona_id st = (inl e, st1) ->
     delete_persona persona_id st
     = (inl (DeleteError
               "Cannot delete persona. May be persona does not exist?"),
        st1))
  /\
  (forall persona_id st old_persona st1,
     fetch_my_persona persona_id st = (inr old_persona, st1) ->
     let payload :=
       [ ("archived", JBool true);
         ("avatar_file_name",
          JStr match Persona_avatar old_persona with
               | Some a => get_file_name a
               | None => EmptyString
               end);
         ("copyable", JBool false);
         ("default_voice_id", JStr EmptyString);
         ("definition", JStr (Persona_definition old_persona));
         ("description", JStr "This is my persona.");
         ("external_id", JStr persona_id);
         ("greeting", JStr "Hello! This is my persona");
         ("img_gen_enabled", JBool false);
         ("is_persona", JBool true);
         ("name", JStr (Persona_name old_persona));
         ("participant__name", JStr (Persona_name old_persona));
         ("participant__num_interactions", JNum 0);
         ("title", JStr (Persona_name old_persona));
         ("user__id", JStr get_account_id);
         ("user__username", JStr (Persona_author_username old_persona));
         ("visibility", JStr "PRIVATE") ] in
     let post :=
       {| url := "https://plus.character.ai/chat/persona/update/";
          options := {| method := Some "POST";
                        headers := get_headers;
                        body := Some (json_dumps (JDict payload)) |} |} in
     calls (snd (delete_persona persona_id st))
     = (calls st1 ++ [post])%list
     /\ (forall name definition avatar_rel_path,
          keys payload
          = "archived"
            :: filter
                 (fun k => negb (String.eqb k "avatar_rel_path")
                           && negb (String.eqb k "enabled"))
                 (keys (edit_persona_payload old_persona persona_id name
                          definition avatar_rel_path)))
     /\ (forall a w2,
          respond (world st1) post = (inr a, w2) ->
          (forall response persona,
             status_code a = 200 -> json_body a = JDict response ->
             dict_lookup "status" response = Some (JStr "OK") ->
             dict_lookup "persona" response = Some persona ->
             persona <> JNull ->
             fst (delete_persona persona_id st) = inr true)
          /\ (forall response,
                status_code a = 200 -> json_body a = JDict response ->
                eq_str (dict_get "status" JNull response) "OK"
                && is_not_None (dict_get "persona" JNull response) = false ->
                fst (delete_persona persona_id st)
                = inl (DeleteError
                         ("Cannot delete persona. "
                          ++ format (dict_get "error" (JStr EmptyString)
                                       response))))
          /\ (status_code a <> 200 ->
              fst (delete_persona persona_id st)
              = inl (DeleteError "Cannot delete persona."))
          /\ (status_code a = 200 ->
              (forall response, json_body a <> JDict response) ->
              fst (delete_persona persona_id st)
              = inl (AttributeError (type_of (json_body a)) "get")))).
Proof.
  split.
  - intros. now apply delete_persona_fetch_failed with e.
  - intros persona_id st old_persona st1 Hf payload post.
    pose proof (delete_persona_run _ _ _ _ Hf) as Hrun. cbv zeta in Hrun.
    assert (Hpost :
      post_request persona_update_url
        (Some (json_dumps (JDict
           (delete_persona_payload old_persona persona_id)))) = post)
      by reflexivity.
    rewrite Hpost in Hrun. clear Hpost. split; [|split].
    + rewrite Hrun.
      destruct (respond (world st1) post) as [[detail|a] w2]; reflexivity.
    + intros name definition avatar_rel_path.
      unfold edit_persona_payload.
      destruct (nonempty avatar_rel_path); reflexivity.
    + intros a w2 Hp. rewrite Hrun, Hp. cbn [fst].
      unfold delete_reply, ok_with_persona. repeat split.
      * intros x persona H200 Hx Hs Hpe Hnn. rewrite H200, Hx.
        cbn [Z.eqb Pos.eqb].
        rewrite (dict_get_found _ _ _ _ Hs), (dict_get_found _ _ _ _ Hpe).
        destruct persona; try reflexivity. contradiction.
      * intros x H200 Hx Hok. now rewrite H200, Hx, Hok.
      * intros Hne. now destruct (Z.eqb_spec (status_code a) 200).
      * intros H200 Hno. rewrite H200. cbn [Z.eqb Pos.eqb].
        destruct (json_body a) as [| | | | |x]; try reflexivity.
        now destruct (Hno x).
Qed.

(** C7.  A preliminary fetch that raises, whatever the exception, makes
    [edit_persona] raise [EditError] and [delete_persona] raise
    [DeleteError]; and whatever the inner settings update raises,
    [set_default_persona], [unset_default_persona], [set_persona] and
    [unset_persona] raise their [SetError], which is the only exception
    they ever raise: the cause is gone. *)
Theorem failures_are_rewrapped :
  (forall persona_id name definition avatar_rel_path st e st1,
     edit_persona_arguments_ok name definition = true ->
     fetch_my_persona persona_id st = (inl e, st1) ->
     edit_persona persona_id name definition avatar_rel_path st
     = (inl (EditError
               "Cannot edit persona. May be persona does not exist?"),
        st1))
  /\
  (forall persona_id st e st1,
     fetch_my_persona persona_id st = (inl e, st1) ->
     delete_persona persona_id st
     = (inl (DeleteError
               "Cannot delete persona. May be persona does not exist?"),
        st1))
  /\
  (forall persona_id st e st1,
     __update_settings
       {| default_persona_id := Some (or_empty persona_id);
          persona_override := None;
          voice_override := None;
          character_id := None |} st = (inl e, st1) ->
     set_default_persona persona_id st
     = (inl (SetError "Cannot set default persona."), st1))
  /\
  (forall st e st1,
     __update_settings
       {| default_persona_id := Some EmptyString;
          persona_override := None;
          voice_override := None;
          character_id := None |} st = (inl e, st1) ->
     unset_default_persona st
     = (inl (SetError "Cannot set default persona."), st1))
  /\
  (forall character persona_id st e st1,
     __update_settings
       {| default_persona_id := None;
          persona_override := Some (or_empty persona_id);
          voice_override := None;
          character_id := Some character |} st = (inl e, st1) ->
     set_persona character persona_id st
     = (inl (SetError "Cannot set persona."), st1))
  /\
  (forall character st e st1,
     __update_settings
       {| default_persona_id := None;
          persona_override := Some EmptyString;
          voice_override := None;
          character_id := Some character |} st = (inl e, st1) ->
     unset_persona character st
     = (inl (SetError "Cannot set persona."), st1))
  /\
  (forall persona_id st e,
     fst (set_default_persona persona_id st) = inl e ->
     e = SetError "Cannot set default persona.")
  /\
  (forall character persona_id st e,
     fst (set_persona character persona_id st) = inl e ->
     e = SetError "Cannot set persona.").
Proof.
  repeat split.
  - intros. now apply edit_persona_fetch_failed with e.
  - intros. now apply delete_persona_fetch_failed with e.
  - intros persona_id st e st1 H. now rewrite set_default_persona_run, H.
  - intros st e st1 H. unfold unset_default_persona.
    rewrite set_default_persona_run. cbn [or_empty]. now rewrite H.
  - intros character persona_id st e st1 H.
    now rewrite set_persona_run, H.
  - intros character st e st1 H. unfold unset_persona.
    rewrite set_persona_run. cbn [or_empty]. now rewrite H.
  - intros persona_id st e. rewrite set_default_persona_run.
    destruct (__update_settings _ st) as [[e'|x] st']; cbn [fst];
      congruence.
  - intros character persona_id st e. rewrite set_persona_run.
    destruct (__update_settings _ st) as [[e'|x] st']; cbn [fst];
      congruence.
Qed.

End Personas.

(** ** Voice overrides *)

Section VoiceOverride.

Context {R : Requester} {C : Client} {T : Types}.

Lemma set_voice_run character_id voice_id st :
  let post := voice_request character_id voice_id in
  set_voice character_id voice_id st
  = match respond (world st) post with
    | (inl detail, w) => (inl (RequesterError detail), after st post w)
    | (inr a, w) => (voice_reply a, after st post w)
    end.
Proof.
  intros post. subst post.
  unfold set_voice, voice_request, bind, request, post_request.
  destruct (given voice_id);
    (destruct (respond (world st) _) as [[detail|a] w]; [reflexivity|];
     unfold after, voice_reply;
     destruct (status_code a =? 200); [|reflexivity];
     destruct (json_body a) as [| | | | |x]; try reflexivity;
     cbn [get]; unfold ret;
     destruct (truthy (dict_get "success" (JBool false) x)); reflexivity).
Qed.

(** C6, as the code has it.  [set_voice] with a voice id POSTs to the
    [update] path of the character's voice override with the body
    [{voice_id: id}], and [unset_voice] POSTs to the [delete] path with no
    body.  Both return [True] exactly when the answer has status 200 and
    an object body whose [success] is a true value in the Python sense
    (any value but null, false, zero and the empty string, list and
    object); they raise [SetError] when the status is not 200 or the
    object body has no true [success]. *)
Theorem set_voice_contract :
  (forall character_id voice_id st,
     nonempty voice_id = true ->
     calls (snd (set_voice character_id (Some voice_id) st))
     = (calls st
        ++ [post_request
              ("https://plus.character.ai/chat/character/" ++ character_id
                 ++ "/voice_override/update/")
              (Some (json_dumps (JDict [("voice_id", JStr voice_id)])))])%list)
  /\
  (forall character_id st,
     calls (snd (unset_voice character_id st))
     = (calls st
        ++ [post_request
              ("https://plus.character.ai/chat/character/" ++ character_id
                 ++ "/voice_override/delete/")
              None])%list)
  /\
  (forall character_id voice_id st a w,
     respond (world st) (voice_request character_id voice_id) = (inr a, w) ->
     (fst (set_voice character_id voice_id st) = inr true
      <-> status_code a = 200
          /\ exists response,
               json_body a = JDict response
               /\ truthy (dict_get "success" (JBool false) response) = true)
     /\ (status_code a <> 200
         \/ (exists response,
               json_body a = JDict response
               /\ truthy (dict_get "success" (JBool false) response)
                  = false) ->
         fst (set_voice character_id voice_id st)
         = inl (SetError "Cannot set voice.")))
  /\
  (forall character_id st a w,
     respond (world st) (voice_request character_id None) = (inr a, w) ->
     (fst (unset_voice character_id st) = inr true
      <-> status_code a = 200
          /\ exists response,
               json_body a = JDict response
               /\ truthy (dict_get "success" (JBool false) response) = true)
     /\ (status_code a <> 200
         \/ (exists response,
               json_body a = JDict response
               /\ truthy (dict_get "success" (JBool false) response)
                  = false) ->
         fst (unset_voice character_id st)
         = inl (SetError "Cannot set voice."))).
Proof.
  assert (Hreply : forall a,
    (voice_reply a = inr true
     <-> status_code a = 200
         /\ exists response,
              json_body a = JDict response
              /\ truthy (dict_get "success" (JBool false) response) = true)
    /\ (status_code a <> 200
        \/ (exists response,
              json_body a = JDict response
              /\ truthy (dict_get "success" (JBool false) response)
                 = false) ->
        voice_reply a = inl (SetError "Cannot set voice."))).
  { intros a. unfold voice_reply.
    destruct (Z.eqb_spec (status_code a) 200) as [E|E].
    - split.
      + split.
        * intros H. split; [assumption|].
          destruct (json_body a) as [| | | | |x]; try discriminate.
          exists x. split; [reflexivity|].
          now destruct (truthy (dict_get "success" (JBool false) x)).
        * intros [_ (x & -> & ->)]. reflexivity.
      + intros [H|(x & -> & ->)]; [contradiction|reflexivity].
    - split.
      + split; [discriminate|]. now intros [H _].
      + reflexivity. }
  split; [|split; [|split]].
  - intros character_id voice_id st Hv. rewrite set_voice_run.
    unfold voice_request. cbn [given or_empty]. rewrite Hv.
    destruct (respond (world st) _) as [[detail|a] w]; reflexivity.
  - intros character_id st. unfold unset_voice. rewrite set_voice_run.
    unfold voice_request. cbn [given].
    destruct (respond (world st) _) as [[detail|a] w]; reflexivity.
  - intros character_id voice_id st a w H. rewrite set_voice_run.
    cbv zeta. rewrite H. cbn [fst]. apply Hreply.
  - intros character_id st a w H. unfold unset_voice. rewrite set_voice_run.
    cbv zeta. rewrite H. cbn [fst]. apply Hreply.
Qed.

End VoiceOverride.

(** ** The account *)

Section EditAccount.

Context {R : Requester} {C : Client} {T : Types}.

Lemma edit_account_refused name username bio avatar_rel_path st :
  edit_account_refuses name username bio = true ->
  exists msg,
    edit_account name username bio avatar_rel_path st
    = (inl (InvalidArgumentError msg), st).
Proof.
  unfold edit_account_refuses, edit_account. intros H.
  destruct ((len username <? 2) || (len name >? 20)) eqn:E1;
    [unfold raise; eauto|].
  destruct ((len name <? 2) || (len name >? 50)) eqn:E2;
    [unfold raise; eauto|].
  destruct (len bio >? 500) eqn:E3; [unfold raise; eauto|].
  apply orb_false_iff in E2 as [E2 _].
  rewrite ?E1, ?E2, ?E3 in H. discriminate.
Qed.

Lemma edit_account_posts name username bio avatar_rel_path st :
  edit_account_refuses name username bio = false ->
  exists account_info,
    calls (snd (edit_account name username bio avatar_rel_path st))
    = (calls st
       ++ [post_request update_url
             (Some (json_dumps (JDict account_info)))])%list
    /\ dict_lookup "name" account_info = Some (JStr name)
    /\ dict_lookup "username" account_info = Some (JStr username)
    /\ dict_lookup "bio" account_info = Some (JStr bio).
Proof.
  unfold edit_account_refuses, edit_account. intros H.
  apply orb_false_iff in H as [H Hb].
  apply orb_false_iff in H as [H Hn2].
  rewrite H, Hn2, Hb.
  apply orb_false_iff in H as [_ Hn20].
  assert (Hn50 : (len name >? 50) = false).
  { rewrite Z.gtb_ltb in *. apply Z.ltb_ge. apply Z.ltb_ge in Hn20. lia. }
  rewrite Hn50. cbn [orb].
  eexists. split.
  - unfold bind, request, post_request, update_url.
    destruct (respond (world st) _) as [[detail|a] w]; cbn [snd calls];
      [reflexivity|].
    destruct (status_code a =? 200); [|reflexivity].
    destruct (json_body a) as [| | | | |x]; try reflexivity.
    cbn [get]. unfold ret.
    destruct (eq_str (dict_get "status" (JStr EmptyString) x) "OK");
      reflexivity.
  - destruct (nonempty avatar_rel_path); repeat split; reflexivity.
Qed.

End EditAccount.

Section EditAccountBound.

Context {R : Requester} {C : Client} {T : Types}.

(** C1.  The first length check of [edit_account] reads the wrong
    argument.  A name of 21 characters with the username [ab] and an
    empty bio, all within the documented bounds, is refused with the
    message about the username and without any call; a username of 21
    characters with the name [ab], which the message says is too long,
    passes validation and is POSTed to the update endpoint. *)
Theorem edit_account_checks_name_for_username st :
  edit_account Double.twenty_one "ab" EmptyString EmptyString st
  = (inl (InvalidArgumentError
       ("Cannot edit account info. "
        ++ "Username must be at least 2 characters and no more than 20.")),
     st)
  /\
  calls (snd (edit_account "ab" Double.twenty_one EmptyString EmptyString st))
  = (calls st
     ++ [post_request update_url
           (Some (json_dumps (JDict
              [("avatar_type", JStr "DEFAULT");
               ("bio", JStr EmptyString);
               ("name", JStr "ab");
               ("username", JStr Double.twenty_one)])))])%list.
Proof.
  split; [reflexivity|].
  unfold edit_account, bind, request, post_request, update_url.
  cbn [len String.length Double.twenty_one Z.of_nat Z.ltb Z.gtb Z.compare
       Pos.of_succ_nat Pos.succ Pos.compare Pos.compare_cont orb nonempty].
  destruct (respond (world st) _) as [[detail|a] w]; cbn [snd calls];
    [reflexivity|].
  destruct (status_code a =? 200); [|reflexivity].
  destruct (json_body a) as [| | | | |x]; try reflexivity.
  cbn [get]. unfold ret.
  destruct (eq_str (dict_get "status" (JStr EmptyString) x) "OK");
    reflexivity.
Qed.

End EditAccountBound.

(** * The properties on the doubles *)

Import Double.


Lemma fetch_me_null_user_witness :
  fst (run (R := Double.scripted)
         fetch_me [Double.ok (JDict [("user", JNull)])])
  = inl (AttributeError NoneType "get")
  /\ fst (run (R := Double.scripted) fetch_me [Double.ok (JDict [])])
     = inl (AttributeError NoneType "get").
Proof.
  destruct (fetch_me_null_user (R := Double.scripted)) as [Hnull _].
  split.
  - eapply Hnull; [reflexivity | reflexivity | reflexivity | now right].
  - eapply Hnull; [reflexivity | reflexivity | reflexivity | now left].
Defined.

Lemma update_settings_read_modify_write_witness :
  calls (snd (run (R := Double.settings_server)
                (set_persona "c1" (Some "p1")) Double.settings_p0))
  = [fetch_request settings_url;
     post_request update_settings_url
       (Some (json_dumps
          (JDict [("default_persona_id", JStr "p0");
                  ("personaOverrides", JDict [("c1", JStr "p1")])])))].
Proof.
  eapply (proj2 (update_settings_read_modify_write
                   (R := Double.settings_server))); reflexivity.
Defined.

Lemma update_settings_nothing_to_update_witness :
  calls (snd (__update_settings (R := Double.scripted)
                {| default_persona_id := None;
                   persona_override := None;
                   voice_override := None;
                   character_id := Some "c1" |}
                (Double.start [Double.ok Double.settings_p0])))
  = [].
Proof.
  apply (update_settings_nothing_to_update (R := Double.scripted)
           {| default_persona_id := None;
              persona_override := None;
              voice_override := None;
              character_id := Some "c1" |}
           (Double.start [Double.ok Double.settings_p0])
           eq_refl eq_refl eq_refl).
Defined.

Lemma unset_persona_idempotent_witness :
  let twice :=
    run (R := Double.settings_server)
      (first <- unset_persona "c1" ;;
       second <- unset_persona "c1" ;;
       ret (first, second)) Double.settings_unset in
  fst twice = inr (true, true)
  /\ calls (snd twice)
     = [fetch_request settings_url;
        post_request update_settings_url
          (Some (json_dumps Double.settings_unset));
        fetch_request settings_url;
        post_request update_settings_url
          (Some (json_dumps Double.settings_unset))].
Proof.
  assert (Hok : accepted
    {| status_code := 200;
       json_body := JDict [("success", JBool true);
                           ("settings", Double.settings_unset)] |}).
  { split; [reflexivity|]. eexists. split; reflexivity. }
  intros twice. subst twice.
  rewrite (unset_persona_idempotent (R := Double.settings_server)
             "c1" Double.settings_unset _ _ _ [("c1", JStr EmptyString)]
             _ _ _ _ _ _
             eq_refl eq_refl eq_refl eq_refl eq_refl
             eq_refl Hok eq_refl eq_refl eq_refl eq_refl Hok).
  split; reflexivity.
Defined.

Lemma edit_persona_merges_witness :
  exists payload,
    dict_lookup "name" payload = Some (JStr "Al")
    /\ dict_lookup "title" payload = Some (JStr EmptyString)
    /\ dict_lookup "definition" payload = Some (JStr "A pirate.")
    /\ dict_lookup "avatar_rel_path" payload = Some (JStr "al.png").
Proof.
  destruct (edit_persona_merges (R := Double.scripted)
              "p1" EmptyString "A pirate." EmptyString
              (Double.start Double.persona_then_ok) _ _
              eq_refl eq_refl)
    as (payload & _ & Hdefinition & Hname & Htitle & (_ & Hpath) & _).
  exists payload. repeat split; assumption.
Defined.

Lemma delete_persona_archives_witness :
  fst (run (R := Double.scripted)
         (delete_persona "p1") Double.persona_then_ok)
  = inr true
  /\ fst (run (R := Double.scripted) (delete_persona "p1")
            [Double.ok (JDict [("persona", Double.sailor)]);
             Double.status 500])
     = inl (DeleteError "Cannot delete persona.")
  /\ fst (run (R := Double.scripted) (delete_persona "p1")
            [Double.ok (JDict [("persona", Double.sailor)]);
             Double.ok (JDict [("status", JStr "OK")])])
     = inl (DeleteError "Cannot delete persona. ")
  /\ fst (run (R := Double.scripted) (delete_persona "p1")
            [Double.ok (JDict [("persona", Double.sailor)]);
             Double.ok JNull])
     = inl (AttributeError NoneType "get")
  /\ run (R := Double.scripted) (delete_persona "p1") [Double.status 404]
     = (inl (DeleteError
               "Cannot delete persona. May be persona does not exist?"),
        fetched (R := Double.scripted)
          "https://plus.character.ai/chat/persona/?id=p1" []).
Proof.
  destruct (delete_persona_archives (R := Double.scripted))
    as (Hfetch & Hpost).
  split; [|split; [|split; [|split]]].
  - destruct (Hpost "p1" (Double.start Double.persona_then_ok) _ _ eq_refl)
      as (_ & _ & Hanswer).
    apply (proj1 (Hanswer _ _ eq_refl) _ Double.sailor
             eq_refl eq_refl eq_refl eq_refl).
    discriminate.
  - destruct (Hpost "p1"
                (Double.start [Double.ok (JDict [("persona", Double.sailor)]);
                               Double.status 500]) _ _ eq_refl)
      as (_ & _ & Hanswer).
    apply (proj1 (proj2 (proj2 (Hanswer _ _ eq_refl)))). discriminate.
  - destruct (Hpost "p1"
                (Double.start [Double.ok (JDict [("persona", Double.sailor)]);
                               Double.ok (JDict [("status", JStr "OK")])])
                _ _ eq_refl)
      as (_ & _ & Hanswer).
    apply (proj1 (proj2 (Hanswer _ _ eq_refl)) _ eq_refl eq_refl eq_refl).
  - destruct (Hpost "p1"
                (Double.start [Double.ok (JDict [("persona", Double.sailor)]);
                               Double.ok JNull]) _ _ eq_refl)
      as (_ & _ & Hanswer).
    apply (proj2 (proj2 (proj2 (Hanswer _ _ eq_refl))) eq_refl).
    discriminate.
  - apply (Hfetch "p1" (Double.start [Double.status 404])
             (FetchError
                "Cannot fetch your persona. Maybe persona does not exist?")).
    reflexivity.
Defined.

Lemma failures_are_rewrapped_witness :
  run (R := Double.scripted)
    (edit_persona "p1" "Albert" EmptyString EmptyString) [inl "timeout"]
  = (inl (EditError "Cannot edit persona. May be persona does not exist?"),
     fetched (R := Double.scripted)
       "https://plus.character.ai/chat/persona/?id=p1" [])
  /\ run (R := Double.scripted)
       (set_persona "c1" (Some "p1")) [Double.ok JNull]
     = (inl (SetError "Cannot set persona."),
        fetched (R := Double.scripted) settings_url []).
Proof.
  destruct (failures_are_rewrapped (R := Double.scripted))
    as (Hedit & _ & _ & _ & Hset & _).
  split.
  - apply (Hedit "p1" "Albert" EmptyString EmptyString
             (Double.start [inl "timeout"])
             (RequesterError "timeout") _ eq_refl).
    reflexivity.
  - apply (Hset "c1" (Some "p1")
             (Double.start [Double.ok JNull])
             (AttributeError NoneType "get")).
    reflexivity.
Defined.

Lemma set_voice_contract_witness :
  calls (snd (run (R := Double.scripted) (set_voice "c1" (Some "v1"))
                [Double.success (JBool true)]))
  = [post_request
       "https://plus.character.ai/chat/character/c1/voice_override/update/"
       (Some (json_dumps (JDict [("voice_id", JStr "v1")])))]
  /\ fst (run (R := Double.scripted) (set_voice "c1" (Some "v1"))
            [Double.success (JBool true)])
     = inr true
  /\ fst (run (R := Double.scripted) (unset_voice "c1")
            [Double.success (JBool false)])
     = inl (SetError "Cannot set voice.").
Proof.
  destruct (set_voice_contract (R := Double.scripted))
    as (Hupdate & _ & Hset & Hunset).
  split; [|split].
  - apply (Hupdate "c1" "v1" (Double.start [Double.success (JBool true)])
             eq_refl).
  - apply (proj1 (Hset "c1" (Some "v1")
                    (Double.start [Double.success (JBool true)]) _ _
                    eq_refl)).
    split; [reflexivity|]. eexists. split; reflexivity.
  - apply (proj2 (Hunset "c1"
                    (Double.start [Double.success (JBool false)]) _ _
                    eq_refl)).
    right. eexists. split; reflexivity.
Defined.

(** The claim on voice overrides, at answers it does not cover: a
    [success] that is true in Python without being the JSON [true] still
    makes [set_voice] return [True], and a 200 whose body is no object
    ends in an [AttributeError], not in a [SetError]. *)
Lemma set_voice_success_not_true :
  fst (run (R := Double.scripted)
         (set_voice "c1" (Some "v1"))
         [Double.success (JStr "yes")])
  = inr true
  /\ JStr "yes" <> JBool true
  /\ fst (run (R := Double.scripted) (unset_voice "c1")
            [Double.ok (JList [])])
     = inl (AttributeError PyList "get").
Proof. split; [reflexivity | split; [discriminate | reflexivity]]. Qed.

(** The claim on [delete_persona], at a persona whose greeting is not
    the stock one and whose title is not its name: the payload keeps
    neither the fetched greeting nor the fetched title, and it has not
    the keys of the [edit_persona] payload ([enabled] and
    [avatar_rel_path] are missing); and at an update answered with a 200
    whose body is no object, the call ends in an [AttributeError], not
    in a [DeleteError]. *)
Lemma delete_persona_payload_differs :
  exists fetched payload,
    Double.sailor = JDict fetched
    /\ calls (snd (run (R := Double.scripted) (delete_persona "p1")
                    Double.persona_then_ok))
       = [fetch_request "https://plus.character.ai/chat/persona/?id=p1";
          post_request persona_update_url
            (Some (json_dumps (JDict payload)))]
    /\ dict_lookup "greeting" fetched = Some (JStr "Ahoy!")
    /\ dict_lookup "greeting" payload
       = Some (JStr "Hello! This is my persona")
    /\ dict_lookup "greeting" payload <> dict_lookup "greeting" fetched
    /\ dict_lookup "title" fetched = Some (JStr "Captain")
    /\ dict_lookup "title" payload = Some (JStr "Al")
    /\ dict_lookup "title" payload <> dict_lookup "title" fetched
    /\ dict_lookup "enabled" payload = None
    /\ dict_lookup "avatar_rel_path" payload = None
    /\ dict_lookup "enabled"
         (edit_persona_payload (C := Double.client) (T := Double.types)
            (Double.new_persona Double.sailor)
            "p1" EmptyString EmptyString EmptyString)
       = Some (JBool false)
    /\ dict_lookup "avatar_rel_path"
         (edit_persona_payload (C := Double.client) (T := Double.types)
            (Double.new_persona Double.sailor)
            "p1" EmptyString EmptyString EmptyString)
       = Some (JStr "al.png")
    /\ fst (run (R := Double.scripted) (delete_persona "p1")
              [Double.ok (JDict [("persona", Double.sailor)]);
               Double.ok (JList [])])
       = inl (AttributeError PyList "get").
Proof.
  do 2 eexists. split; [reflexivity|]. split; [reflexivity|].
  split; [reflexivity|]. split; [reflexivity|]. split; [discriminate|].
  split; [reflexivity|]. split; [reflexivity|]. split; [discriminate|].
  repeat split; reflexivity.
Qed.

(** * More of the facade *)

(** ** Editing the account *)

Section EditAccountContract.

Context {R : Requester} {C : Client} {T : Types}.

Lemma edit_account_refuses_spec name username bio :
  edit_account_refuses name username bio = true
  <-> len username < 2 \/ len name < 2 \/ 20 < len name \/ 500 < len bio.
Proof.
  unfold edit_account_refuses.
  rewrite !orb_true_iff, !Z.gtb_ltb, !Z.ltb_lt. tauto.
Qed.

(** Once the arguments are accepted, [edit_account] is one POST of the
    account dictionary, whose answer decides the result. *)
Lemma edit_account_run name username bio avatar_rel_path st :
  edit_account_refuses name username bio = false ->
  exists info,
    (keys info
     = ["avatar_type"; "bio"; "name"; "username"]
       ++ (if nonempty avatar_rel_path then ["avatar_rel_path"] else []))%list
    /\ dict_lookup "avatar_type" info
       = Some (JStr (if nonempty avatar_rel_path
                     then "UPLOADED" else "DEFAULT"))
    /\ dict_lookup "avatar_rel_path" info
       = (if nonempty avatar_rel_path
          then Some (JStr avatar_rel_path) else None)
    /\ dict_lookup "bio" info = Some (JStr bio)
    /\ dict_lookup "name" info = Some (JStr name)
    /\ dict_lookup "username" info = Some (JStr username)
    /\ edit_account name username bio avatar_rel_path st
       = match respond (world st)
                 (post_request update_url
                    (Some (json_dumps (JDict info)))) with
         | (inl detail, w) =>
             (inl (RequesterError detail),
              after st (post_request update_url
                          (Some (json_dumps (JDict info)))) w)
         | (inr a, w) =>
             (account_reply a,
              after st (post_request update_url
                          (Some (json_dumps (JDict info)))) w)
         end.
Proof.
  unfold edit_account_refuses, edit_account. intros H.
  apply orb_false_iff in H as [H Hb].
  apply orb_false_iff in H as [H Hn2].
  rewrite H, Hn2, Hb.
  apply orb_false_iff in H as [_ Hn20].
  assert (Hn50 : (len name >? 50) = false).
  { rewrite Z.gtb_ltb in *. apply Z.ltb_ge. apply Z.ltb_ge in Hn20. lia. }
  rewrite Hn50. cbn [orb].
  exists (if nonempty avatar_rel_path
          then dict_store "avatar_rel_path" (JStr avatar_rel_path)
                 [("avatar_type", JStr "UPLOADED"); ("bio", JStr bio);
                  ("name", JStr name); ("username", JStr username)]
          else [("avatar_type", JStr "DEFAULT"); ("bio", JStr bio);
                ("name", JStr name); ("username", JStr username)]).
  do 6 (split; [destruct (nonempty avatar_rel_path); reflexivity|]).
  unfold bind, request, post_request, update_url, after.
  destruct (nonempty avatar_rel_path);
    (destruct (respond (world st) _) as [[detail|a] w]; [reflexivity|];
     unfold account_reply;
     destruct (status_code a =? 200); [|reflexivity];
     destruct (json_body a) as [| | | | |x]; try reflexivity;
     cbn [get]; unfold ret;
     destruct (eq_str (dict_get "status" (JStr EmptyString) x) "OK");
     reflexivity).
Qed.

(** X1.  [edit_account] raises [InvalidArgumentError] exactly when the
    username has fewer than 2 characters, the name fewer than 2 or more
    than 20, or the bio more than 500; it then leaves the state as it
    was, so no call is made. *)
Theorem edit_account_validation name username bio avatar_rel_path st :
  ((exists msg,
      fst (edit_account name username bio avatar_rel_path st)
      = inl (InvalidArgumentError msg))
   <-> len username < 2 \/ len name < 2 \/ 20 < len name \/ 500 < len bio)
  /\
  (len username < 2 \/ len name < 2 \/ 20 < len name \/ 500 < len bio ->
   snd (edit_account name username bio avatar_rel_path st) = st).
Proof.
  rewrite <- edit_account_refuses_spec.
  destruct (edit_account_refuses name username bio) eqn:E.
  - destruct (edit_account_refused name username bio avatar_rel_path st E)
      as [msg Hr].
    rewrite Hr. cbn [fst snd]. split; [|reflexivity].
    split; [reflexivity|]. intros _. now exists msg.
  - destruct (edit_account_run name username bio avatar_rel_path st E)
      as (info & _ & _ & _ & _ & _ & _ & Hrun).
    split; [|discriminate].
    split; [|discriminate]. intros [msg Hm]. rewrite Hrun in Hm.
    destruct (respond (world st) _) as [[detail|a] w]; cbn [fst] in Hm;
      [discriminate|].
    unfold account_reply in Hm.
    destruct (status_code a =? 200); [|discriminate].
    destruct (json_body a) as [| | | | |x]; try discriminate.
    destruct (eq_str (dict_get "status" (JStr EmptyString) x) "OK");
      discriminate.
Qed.

(** X2.  With accepted arguments [edit_account] makes exactly one call,
    a POST to the update path, whatever the answer.  Its body is the
    dictionary of [avatar_type], [bio], [name] and [username], where
    [avatar_type] is UPLOADED with an avatar path and DEFAULT without;
    the key [avatar_rel_path] comes last and only with an avatar path. *)
Theorem edit_account_payload name username bio avatar_rel_path st :
  edit_account_refuses name username bio = false ->
  exists info,
    calls (snd (edit_account name username bio avatar_rel_path st))
    = (calls st
       ++ [post_request update_url (Some (json_dumps (JDict info)))])%list
    /\ (keys info
        = ["avatar_type"; "bio"; "name"; "username"]
          ++ (if nonempty avatar_rel_path
              then ["avatar_rel_path"] else []))%list
    /\ dict_lookup "avatar_type" info
       = Some (JStr (if nonempty avatar_rel_path
                     then "UPLOADED" else "DEFAULT"))
    /\ dict_lookup "avatar_rel_path" info
       = (if nonempty avatar_rel_path
          then Some (JStr avatar_rel_path) else None)
    /\ dict_lookup "bio" info = Some (JStr bio)
    /\ dict_lookup "name" info = Some (JStr name)
    /\ dict_lookup "username" info = Some (JStr username).
Proof.
  intros E.
  destruct (edit_account_run name username bio avatar_rel_path st E)
    as (info & Hk & Ht & Hp & Hb & Hn & Hu & Hrun).
  exists info. repeat split; try assumption.
  rewrite Hrun.
  destruct (respond (world st) _) as [[detail|a] w]; reflexivity.
Qed.

(** X3.  How [edit_account] ends once its POST is answered: [True] on a
    200 whose object body has [status] OK; an [EditError] carrying the
    status text on a 200 with any other or no [status]; the plain
    [EditError] on a status other than 200. *)
Theorem edit_account_outcome name username bio avatar_rel_path st :
  edit_account_refuses name username bio = false ->
  exists info,
    calls (snd (edit_account name username bio avatar_rel_path st))
    = (calls st
       ++ [post_request update_url (Some (json_dumps (JDict info)))])%list
    /\ forall a w,
         respond (world st)
           (post_request update_url (Some (json_dumps (JDict info))))
         = (inr a, w) ->
         (status_code a <> 200 ->
          fst (edit_account name username bio avatar_rel_path st)
          = inl (EditError "Cannot edit account info."))
         /\ (forall response,
               status_code a = 200 -> json_body a = JDict response ->
               dict_lookup "status" response = Some (JStr "OK") ->
               fst (edit_account name username bio avatar_rel_path st)
               = inr true)
         /\ (forall response,
               status_code a = 200 -> json_body a = JDict response ->
               dict_lookup "status" response <> Some (JStr "OK") ->
               fst (edit_account name username bio avatar_rel_path st)
               = inl (EditError
                        ("Cannot edit account info. "
                         ++ format (dict_get "status" (JStr EmptyString)
                                      response)))).
Proof.
  intros E.
  destruct (edit_account_run name username bio avatar_rel_path st E)
    as (info & _ & _ & _ & _ & _ & _ & Hrun).
  exists info. split.
  - rewrite Hrun.
    destruct (respond (world st) _) as [[detail|a] w]; reflexivity.
  - intros a w Ha. rewrite Hrun, Ha. cbn [fst]. unfold account_reply.
    split; [|split].
    + intros Hne. now destruct (Z.eqb_spec (status_code a) 200).
    + intros x H200 Hx Hs. rewrite H200, Hx. cbn [Z.eqb Pos.eqb].
      now rewrite (dict_get_found _ _ _ _ Hs).
    + intros x H200 Hx Hs. rewrite H200, Hx. cbn [Z.eqb Pos.eqb].
      destruct (eq_str (dict_get "status" (JStr EmptyString) x) "OK")
        eqn:Eq; [|reflexivity].
      exfalso. apply Hs. unfold dict_get, eq_str in Eq.
      destruct (dict_lookup "status" x) as [[| | |s| |]|]; try discriminate.
      apply String.eqb_eq in Eq. now subst s.
Qed.

End EditAccountContract.

(** ** Creating and editing a persona *)

Section PersonaContract.

Context {R : Requester} {C : Client} {T : Types}.

Lemma nonempty_len s : nonempty s = true <-> 0 < len s.
Proof.
  unfold len. destruct s; cbn [nonempty String.length]; split; intros H;
    try discriminate; try reflexivity; lia.
Qed.

(** The length checks of [create_persona]: the guard on an empty
    definition changes nothing, an empty text being short enough. *)
Lemma create_persona_checks name definition :
  (len name <? 3) || (len name >? 20) = false
  /\ nonempty definition && (len definition >? 728) = false
  <-> 3 <= len name <= 20 /\ len definition <= 728.
Proof.
  rewrite orb_false_iff, andb_false_iff, !Z.gtb_ltb, !Z.ltb_ge.
  split.
  - intros [[H3 H20] [Hd|Hd]]; repeat split; try assumption.
    destruct (nonempty definition) eqn:E; [discriminate|].
    destruct definition; [unfold len; cbn; lia | discriminate].
  - intros [[H3 H20] Hd]. repeat split; try assumption. now right.
Qed.

(** Once the arguments are accepted, [create_persona] is one POST of the
    creation payload, whose answer decides the result. *)
Lemma create_persona_run uuid name definition avatar_rel_path st :
  3 <= len name <= 20 -> len definition <= 728 ->
  exists payload,
    keys payload
    = ["avatar_file_name"; "avatar_rel_path"; "base_img_prompt";
       "categories"; "copyable"; "definition"; "description"; "greeting";
       "identifier"; "img_gen_enabled"; "name";
       "strip_img_prompt_from_msg"; "title"; "visibility"; "voice_id"]
    /\ dict_lookup "identifier" payload = Some (JStr ("id:" ++ uuid))
    /\ dict_lookup "name" payload = Some (JStr name)
    /\ dict_lookup "title" payload = Some (JStr name)
    /\ dict_lookup "definition" payload = Some (JStr definition)
    /\ dict_lookup "avatar_rel_path" payload = Some (JStr avatar_rel_path)
    /\ dict_lookup "avatar_file_name" payload = Some (JStr EmptyString)
    /\ dict_lookup "visibility" payload = Some (JStr "PRIVATE")
    /\ create_persona uuid name definition avatar_rel_path st
       = match respond (world st)
                 (post_request create_url
                    (Some (json_dumps (JDict payload)))) with
         | (inl detail, w) =>
             (inl (RequesterError detail),
              after st (post_request create_url
                          (Some (json_dumps (JDict payload)))) w)
         | (inr a, w) =>
             (create_reply a,
              after st (post_request create_url
                          (Some (json_dumps (JDict payload)))) w)
         end.
Proof.
  intros Hn Hd.
  destruct (proj2 (create_persona_checks name definition) (conj Hn Hd))
    as [E1 E2].
  unfold create_persona. rewrite E1, E2.
  exists [ ("avatar_file_name", JStr EmptyString);
           ("avatar_rel_path", JStr avatar_rel_path);
           ("base_img_prompt", JStr EmptyString);
           ("categories", JList []);
           ("copyable", JBool false);
           ("definition", JStr definition);
           ("description", JStr "This is my persona.");
           ("greeting", JStr "Hello! This is my persona");
           ("identifier", JStr ("id:" ++ uuid));
           ("img_gen_enabled", JBool false);
           ("name", JStr name);
           ("strip_img_prompt_from_msg", JBool false);
           ("title", JStr name);
           ("visibility", JStr "PRIVATE");
           ("voice_id", JStr EmptyString) ].
  do 8 (split; [reflexivity|]).
  unfold bind at 1, request, post_request, create_url, after.
  destruct (respond (world st) _) as [[detail|a] w]; [reflexivity|].
  unfold create_reply.
  destruct (status_code a =? 200); [|reflexivity].
  destruct (json_body a) as [| | | | |x]; try reflexivity.
  unfold bind at 1. rewrite status_ok_with_persona_dict.
  destruct (ok_with_persona x); reflexivity.
Qed.

(** X4.  [create_persona] raises [InvalidArgumentError] exactly when the
    name has fewer than 3 or more than 20 characters or the definition
    more than 728; it then leaves the state as it was, so no call is
    made. *)
Theorem create_persona_validation uuid name definition avatar_rel_path st :
  ((exists msg,
      fst (create_persona uuid name definition avatar_rel_path st)
      = inl (InvalidArgumentError msg))
   <-> len name < 3 \/ 20 < len name \/ 728 < len definition)
  /\
  (len name < 3 \/ 20 < len name \/ 728 < len definition ->
   snd (create_persona uuid name definition avatar_rel_path st) = st).
Proof.
  destruct (Z_lt_le_dec (len name) 3) as [H3|H3];
    [|destruct (Z_lt_le_dec 20 (len name)) as [H20|H20];
      [|destruct (Z_lt_le_dec 728 (len definition)) as [Hd|Hd]]].
  - unfold create_persona.
    assert (E : (len name <? 3) = true) by now apply Z.ltb_lt.
    rewrite E. cbn [orb]. unfold raise. cbn [fst snd].
    split; [|reflexivity]. split; [intros _; now left|]. eauto.
  - unfold create_persona.
    assert (E' : (len name >? 20) = true)
      by (rewrite Z.gtb_ltb; now apply Z.ltb_lt).
    rewrite E', orb_true_r. unfold raise. cbn [fst snd].
    split; [|reflexivity]. split; [intros _; right; now left|]. eauto.
  - unfold create_persona.
    assert (E1 : (len name <? 3) || (len name >? 20) = false).
    { rewrite orb_false_iff, Z.gtb_ltb, !Z.ltb_ge. lia. }
    assert (E2 : nonempty definition && (len definition >? 728) = true).
    { rewrite andb_true_iff, Z.gtb_ltb, Z.ltb_lt, nonempty_len. lia. }
    rewrite E1, E2. unfold raise. cbn [fst snd].
    split; [|reflexivity]. split; [intros _; right; now right|]. eauto.
  - destruct (create_persona_run uuid name definition avatar_rel_path st
                (conj H3 H20) Hd)
      as (payload & _ & _ & _ & _ & _ & _ & _ & _ & Hrun).
    split; [|lia]. split; [|lia]. intros [msg Hm]. rewrite Hrun in Hm.
    destruct (respond (world st) _) as [[detail|a] w]; cbn [fst] in Hm;
      [discriminate|].
    unfold create_reply in Hm.
    destruct (status_code a =? 200); [|discriminate].
    destruct (json_body a) as [| | | | |x]; try discriminate.
    destruct (ok_with_persona x); discriminate.
Qed.

(** X5.  With accepted arguments [create_persona] makes exactly one
    call, a POST to the creation path, whatever the answer.  Its payload
    has the fifteen keys of the creation form; [identifier] is [id:]
    followed by the identifier drawn for the call, [name] and [title] are
    both the name, [definition] and [avatar_rel_path] are the arguments,
    [avatar_file_name] is empty and [visibility] is PRIVATE. *)
Theorem create_persona_payload uuid name definition avatar_rel_path st :
  3 <= len name <= 20 -> len definition <= 728 ->
  exists payload,
    calls (snd (create_persona uuid name definition avatar_rel_path st))
    = (calls st
       ++ [post_request create_url
             (Some (json_dumps (JDict payload)))])%list
    /\ keys payload
       = ["avatar_file_name"; "avatar_rel_path"; "base_img_prompt";
          "categories"; "copyable"; "definition"; "description";
          "greeting"; "identifier"; "img_gen_enabled"; "name";
          "strip_img_prompt_from_msg"; "title"; "visibility"; "voice_id"]
    /\ dict_lookup "identifier" payload = Some (JStr ("id:" ++ uuid))
    /\ dict_lookup "name" payload = Some (JStr name)
    /\ dict_lookup "title" payload = Some (JStr name)
    /\ dict_lookup "definition" payload = Some (JStr definition)
    /\ dict_lookup "avatar_rel_path" payload = Some (JStr avatar_rel_path)
    /\ dict_lookup "avatar_file_name" payload = Some (JStr EmptyString)
    /\ dict_lookup "visibility" payload = Some (JStr "PRIVATE").
Proof.
  intros Hn Hd.
  destruct (create_persona_run uuid name definition avatar_rel_path st
              Hn Hd)
    as (payload & Hk & Hi & Hna & Ht & Hde & Hp & Hf & Hv & Hrun).
  exists payload. repeat split; try assumption.
  rewrite Hrun.
  destruct (respond (world st) _) as [[detail|a] w]; reflexivity.
Qed.

(** X6.  How [create_persona] ends once its POST is answered: the
    persona built from the answer's [persona] on a 200 whose object body
    has [status] OK and a non-null [persona]; a [CreateError] carrying
    the answer's [error] text on any other 200 with an object body; the
    plain [CreateError] on a status other than 200. *)
Theorem create_persona_outcome uuid name definition avatar_rel_path st :
  3 <= len name <= 20 -> len definition <= 728 ->
  exists payload,
    calls (snd (create_persona uuid name definition avatar_rel_path st))
    = (calls st
       ++ [post_request create_url
             (Some (json_dumps (JDict payload)))])%list
    /\ forall a w,
         respond (world st)
           (post_request create_url (Some (json_dumps (JDict payload))))
         = (inr a, w) ->
         (status_code a <> 200 ->
          fst (create_persona uuid name definition avatar_rel_path st)
          = inl (CreateError "Cannot create persona."))
         /\ (forall response persona,
               status_code a = 200 -> json_body a = JDict response ->
               dict_lookup "status" response = Some (JStr "OK") ->
               dict_lookup "persona" response = Some persona ->
               persona <> JNull ->
               fst (create_persona uuid name definition avatar_rel_path st)
               = inr (new_Persona persona))
         /\ (forall response,
               status_code a = 200 -> json_body a = JDict response ->
               ok_with_persona response = false ->
               fst (create_persona uuid name definition avatar_rel_path st)
               = inl (CreateError
                        ("Cannot create persona. "
                         ++ format (dict_get "error" (JStr EmptyString)
                                      response)))).
Proof.
  intros Hn Hd.
  destruct (create_persona_run uuid name definition avatar_rel_path st
              Hn Hd)
    as (payload & _ & _ & _ & _ & _ & _ & _ & _ & Hrun).
  exists payload. split.
  - rewrite Hrun.
    destruct (respond (world st) _) as [[detail|a] w]; reflexivity.
  - intros a w Ha. rewrite Hrun, Ha. cbn [fst]. unfold create_reply.
    split; [|split].
    + intros Hne. now destruct (Z.eqb_spec (status_code a) 200).
    + intros x persona H200 Hx Hs Hp Hnn. rewrite H200, Hx.
      cbn [Z.eqb Pos.eqb]. unfold ok_with_persona.
      rewrite (dict_get_found _ _ _ _ Hs), (dict_get_found _ _ _ _ Hp).
      destruct persona; try reflexivity. contradiction.
    + intros x H200 Hx Hok. now rewrite H200, Hx, Hok.
Qed.

End PersonaContract.

(** ** The calls of the fetch operations *)

Ltac one_fetch_call :=
  intros st; unfold bind, request, fetch_request;
  destruct (respond (world st) _) as [[detail|r] w]; cbn [snd calls];
  [reflexivity|];
  destruct (status_code r =? 200); [|reflexivity];
  try reflexivity;
  destruct (json_body r) as [| | | | |d]; try reflexivity;
  cbn [get]; unfold ret; try reflexivity.

Section FetchCalls.

Context {R : Requester} {C : Client} {T : Types}.

Lemma fetch_me_calls :
  makes_one_call fetch_me
    (fetch_request "https://plus.character.ai/chat/user/").
Proof.
  unfold fetch_me. one_fetch_call.
  destruct (dict_get "user" JNull d); reflexivity.
Qed.

Lemma fetch_my_settings_calls :
  makes_one_call fetch_my_settings (fetch_request settings_url).
Proof. unfold fetch_my_settings, settings_url. one_fetch_call. Qed.

Lemma fetch_my_followers_calls :
  makes_one_call fetch_my_followers
    (fetch_request "https://plus.character.ai/chat/user/followers/").
Proof. unfold fetch_my_followers. one_fetch_call. Qed.

Lemma fetch_my_following_calls :
  makes_one_call fetch_my_following
    (fetch_request "https://plus.character.ai/chat/user/following/").
Proof. unfold fetch_my_following. one_fetch_call. Qed.

Lemma fetch_my_persona_calls persona_id :
  makes_one_call (fetch_my_persona persona_id)
    (fetch_request
       ("https://plus.character.ai/chat/persona/?id=" ++ persona_id)).
Proof.
  unfold fetch_my_persona. one_fetch_call.
  destruct (truthy (dict_get "persona" JNull d)); reflexivity.
Qed.

Lemma fetch_my_personas_calls :
  makes_one_call fetch_my_personas
    (fetch_request
       "https://plus.character.ai/chat/personas/?force_refresh=1").
Proof.
  unfold fetch_my_personas. one_fetch_call.
  destruct (dict_get "personas" (JList []) d); reflexivity.
Qed.

Lemma fetch_my_characters_calls :
  makes_one_call fetch_my_characters
    (fetch_request "https://plus.character.ai/chat/characters/?scope=user").
Proof.
  unfold fetch_my_characters. one_fetch_call.
  destruct (dict_get "characters" (JList []) d); reflexivity.
Qed.

Lemma fetch_my_upvoted_characters_calls :
  makes_one_call fetch_my_upvoted_characters
    (fetch_request
       "https://plus.character.ai/chat/user/characters/upvoted/").
Proof.
  unfold fetch_my_upvoted_characters. one_fetch_call.
  destruct (dict_get "characters" (JList []) d); reflexivity.
Qed.

Lemma fetch_my_voices_calls :
  makes_one_call fetch_my_voices
    (fetch_request
       "https://neo.character.ai/multimodal/api/v1/voices/user").
Proof.
  unfold fetch_my_voices. one_fetch_call.
  destruct (dict_get "voices" (JList []) d); reflexivity.
Qed.

(** X7.  Each of the nine fetch operations makes exactly one call on the
    Requester, however it ends (result, [FetchError], a failing
    Requester or a malformed body): a request to its fixed address with
    the Client's headers, no method (the Requester's GET) and no body. *)
Theorem fetches_make_one_call :
  let get u :=
    {| url := u;
       options := {| method := None; headers := get_headers;
                     body := None |} |} in
  makes_one_call fetch_me (get "https://plus.character.ai/chat/user/")
  /\ makes_one_call fetch_my_settings
       (get "https://plus.character.ai/chat/user/settings/")
  /\ makes_one_call fetch_my_followers
       (get "https://plus.character.ai/chat/user/followers/")
  /\ makes_one_call fetch_my_following
       (get "https://plus.character.ai/chat/user/following/")
  /\ (forall persona_id,
        makes_one_call (fetch_my_persona persona_id)
          (get ("https://plus.character.ai/chat/persona/?id="
                  ++ persona_id)))
  /\ makes_one_call fetch_my_personas
       (get "https://plus.character.ai/chat/personas/?force_refresh=1")
  /\ makes_one_call fetch_my_characters
       (get "https://plus.character.ai/chat/characters/?scope=user")
  /\ makes_one_call fetch_my_upvoted_characters
       (get "https://plus.character.ai/chat/user/characters/upvoted/")
  /\ makes_one_call fetch_my_voices
       (get "https://neo.character.ai/multimodal/api/v1/voices/user").
Proof.
  cbv zeta. repeat split.
  - apply fetch_me_calls.
  - apply fetch_my_settings_calls.
  - apply fetch_my_followers_calls.
  - apply fetch_my_following_calls.
  - apply fetch_my_persona_calls.
  - apply fetch_my_personas_calls.
  - apply fetch_my_characters_calls.
  - apply fetch_my_upvoted_characters_calls.
  - apply fetch_my_voices_calls.
Qed.

(** Every way [fetch_my_persona] can end, by the answer to its call. *)
Lemma fetch_my_persona_outcome persona_id st :
  fst (fetch_my_persona persona_id st)
  = match fst (respond (world st)
                 (fetch_request
                    ("https://plus.character.ai/chat/persona/?id="
                       ++ persona_id))) with
    | inl detail => inl (RequesterError detail)
    | inr r =>
        if status_code r =? 200 then
          match json_body r with
          | JDict d =>
              if truthy (dict_get "persona" JNull d)
              then inr (new_Persona (dict_get "persona" JNull d))
              else inl (FetchError
                     "Cannot fetch your persona. Maybe persona does not exist?")
          | other => inl (AttributeError (type_of other) "get")
          end
        else inl (FetchError
               "Cannot fetch your persona. Maybe persona does not exist?")
    end.
Proof.
  unfold fetch_my_persona, bind, request, fetch_request.
  destruct (respond (world st) _) as [[detail|r] w]; cbn [fst];
    [reflexivity|].
  destruct (status_code r =? 200); [|reflexivity].
  destruct (json_body r) as [| | | | |d]; try reflexivity.
  cbn [get]. unfold ret.
  destruct (truthy (dict_get "persona" JNull d)); reflexivity.
Qed.

(** X8.  [fetch_my_persona] returns a persona exactly when the call is
    answered with status 200 and an object body whose [persona] is a
    true value, and the persona is built from that value; a [persona]
    that is present but false (an empty object, list or string, zero,
    [false]) raises [FetchError] like a missing one. *)
Theorem fetch_my_persona_characterised persona_id st :
  (forall p,
     fst (fetch_my_persona persona_id st) = inr p
     <-> exists r w d v,
           respond (world st)
             (fetch_request
                ("https://plus.character.ai/chat/persona/?id="
                   ++ persona_id)) = (inr r, w)
           /\ status_code r = 200 /\ json_body r = JDict d
           /\ dict_lookup "persona" d = Some v /\ truthy v = true
           /\ p = new_Persona v)
  /\
  (forall r w d v,
     respond (world st)
       (fetch_request
          ("https://plus.character.ai/chat/persona/?id=" ++ persona_id))
     = (inr r, w) ->
     status_code r = 200 -> json_body r = JDict d ->
     dict_lookup "persona" d = Some v -> truthy v = false ->
     fst (fetch_my_persona persona_id st)
     = inl (FetchError
         "Cannot fetch your persona. Maybe persona does not exist?")).
Proof.
  rewrite fetch_my_persona_outcome. split.
  - intros p. split.
    + destruct (respond (world st) _) as [[detail|r] w] eqn:H; cbn [fst];
        [discriminate|].
      destruct (Z.eqb_spec (status_code r) 200) as [E|E]; [|discriminate].
      destruct (json_body r) as [| | | | |d] eqn:Hb; try discriminate.
      unfold dict_get.
      destruct (dict_lookup "persona" d) as [v|] eqn:Hl; [|discriminate].
      destruct (truthy v) eqn:Ht; [|discriminate].
      intros [= <-]. now exists r, w, d, v.
    + intros (r & w & d & v & H & H200 & Hd & Hl & Ht & ->).
      rewrite H. cbn [fst]. rewrite H200, Hd. cbn [Z.eqb Pos.eqb].
      now rewrite (dict_get_found _ _ _ _ Hl), Ht.
  - intros r w d v H H200 Hd Hl Ht. rewrite H. cbn [fst].
    rewrite H200, Hd. cbn [Z.eqb Pos.eqb].
    now rewrite (dict_get_found _ _ _ _ Hl), Ht.
Qed.

(** X9.  In the four collection fetches a field that is present but
    holds null, a boolean or a number is not taken for an absent one:
    the loop over it raises [TypeError]. *)
Theorem collections_not_iterable :
  needs_iterable fetch_my_personas
    "https://plus.character.ai/chat/personas/?force_refresh=1" "personas"
  /\ needs_iterable fetch_my_characters
       "https://plus.character.ai/chat/characters/?scope=user" "characters"
  /\ needs_iterable fetch_my_upvoted_characters
       "https://plus.character.ai/chat/user/characters/upvoted/"
       "characters"
  /\ needs_iterable fetch_my_voices
       "https://neo.character.ai/multimodal/api/v1/voices/user" "voices".
Proof.
  repeat split; intros w r w' d v H H200 Hd Hf Hv.
  - unfold fetch_my_personas. answered H. is_200.
    rewrite (dict_get_found _ _ _ _ Hf). now destruct v.
  - unfold fetch_my_characters. answered H. is_200.
    rewrite (dict_get_found _ _ _ _ Hf). now destruct v.
  - unfold fetch_my_upvoted_characters. answered H. is_200.
    rewrite (dict_get_found _ _ _ _ Hf). now destruct v.
  - unfold fetch_my_voices. answered H. is_200.
    rewrite (dict_get_found _ _ _ _ Hf). now destruct v.
Qed.

End FetchCalls.

(** ** Editing and deleting a persona *)

Section PersonaUpdate.

Context {R : Requester} {C : Client} {T : Types}.

Lemma edit_persona_arguments_ok_spec name definition :
  edit_persona_arguments_ok name definition = false
  <-> 0 < len name < 3 \/ 20 < len name \/ 728 < len definition.
Proof.
  unfold edit_persona_arguments_ok.
  rewrite andb_false_iff, !negb_false_iff, !andb_true_iff, orb_true_iff,
    !nonempty_len, !Z.gtb_ltb, !Z.ltb_lt.
  lia.
Qed.

Lemma edit_persona_refused persona_id name definition avatar_rel_path st :
  edit_persona_arguments_ok name definition = false ->
  exists msg,
    edit_persona persona_id name definition avatar_rel_path st
    = (inl (InvalidArgumentError msg), st).
Proof.
  unfold edit_persona_arguments_ok, edit_persona. intros H.
  destruct (nonempty name && ((len name <? 3) || (len name >? 20)));
    [unfold raise; eauto|].
  destruct (nonempty definition && (len definition >? 728));
    [unfold raise; eauto|discriminate].
Qed.

(** X10.  [edit_persona] raises [InvalidArgumentError] exactly when a
    non-empty name has fewer than 3 or more than 20 characters or the
    definition has more than 728; an empty name passes.  It then leaves
    the state as it was: the persona is not even fetched. *)
Theorem edit_persona_validation
    persona_id name definition avatar_rel_path st :
  ((exists msg,
      fst (edit_persona persona_id name definition avatar_rel_path st)
      = inl (InvalidArgumentError msg))
   <-> 0 < len name < 3 \/ 20 < len name \/ 728 < len definition)
  /\
  (0 < len name < 3 \/ 20 < len name \/ 728 < len definition ->
   snd (edit_persona persona_id name definition avatar_rel_path st) = st).
Proof.
  rewrite <- edit_persona_arguments_ok_spec.
  destruct (edit_persona_arguments_ok name definition) eqn:E.
  - split; [|discriminate]. split; [|discriminate]. intros [msg Hm].
    destruct (fetch_my_persona persona_id st) as [[e|old] st1] eqn:F.
    + rewrite (edit_persona_fetch_failed _ _ _ avatar_rel_path _ _ _ E F)
        in Hm.
      discriminate.
    + rewrite (edit_persona_run _ _ _ avatar_rel_path _ _ _ E F) in Hm.
      cbv zeta in Hm.
      destruct (respond (world st1) _) as [[detail|a] w]; cbn [fst] in Hm;
        [discriminate|].
      unfold edit_reply in Hm.
      destruct (status_code a =? 200); [|discriminate].
      destruct (json_body a) as [| | | | |x]; try discriminate.
      destruct (ok_with_persona x); discriminate.
  - destruct (edit_persona_refused persona_id name definition
                avatar_rel_path st E) as [msg Hr].
    rewrite Hr. cbn [fst snd]. split; [|reflexivity].
    split; [reflexivity|]. intros _. now exists msg.
Qed.

(** X11.  How [edit_persona] ends once the persona is fetched and its
    POST answered: the persona built from the answer's [persona] on a
    200 whose object body has [status] OK and a non-null [persona]; an
    [EditError] carrying the answer's [error] text on any other 200 with
    an object body; the plain [EditError] on a status other than 200. *)
Theorem edit_persona_outcome
    persona_id name definition avatar_rel_path st old_persona st1 a w2 :
  edit_persona_arguments_ok name definition = true ->
  fetch_my_persona persona_id st = (inr old_persona, st1) ->
  respond (world st1)
    (post_request persona_update_url
       (Some (json_dumps (JDict
          (edit_persona_payload old_persona persona_id name definition
             avatar_rel_path)))))
  = (inr a, w2) ->
  (status_code a <> 200 ->
   fst (edit_persona persona_id name definition avatar_rel_path st)
   = inl (EditError "Cannot edit persona."))
  /\ (forall response persona,
        status_code a = 200 -> json_body a = JDict response ->
        dict_lookup "status" response = Some (JStr "OK") ->
        dict_lookup "persona" response = Some persona ->
        persona <> JNull ->
        fst (edit_persona persona_id name definition avatar_rel_path st)
        = inr (new_Persona persona))
  /\ (forall response,
        status_code a = 200 -> json_body a = JDict response ->
        ok_with_persona response = false ->
        fst (edit_persona persona_id name definition avatar_rel_path st)
        = inl (EditError
                 ("Cannot edit persona. "
                  ++ format (dict_get "error" (JStr EmptyString)
                               response)))).
Proof.
  intros E F Ha.
  rewrite (edit_persona_run _ _ _ avatar_rel_path _ _ _ E F). cbv zeta.
  rewrite Ha. cbn [fst]. unfold edit_reply. split; [|split].
  - intros Hne. now destruct (Z.eqb_spec (status_code a) 200).
  - intros x persona H200 Hx Hs Hp Hnn. rewrite H200, Hx.
    cbn [Z.eqb Pos.eqb]. unfold ok_with_persona.
    rewrite (dict_get_found _ _ _ _ Hs), (dict_get_found _ _ _ _ Hp).
    destruct persona; try reflexivity. contradiction.
  - intros x H200 Hx Hok. now rewrite H200, Hx, Hok.
Qed.

(** X12.  [edit_persona] and [delete_persona] make at most two calls and
    never update what they could not fetch: when the preliminary fetch
    raises, the GET of the persona is their only call; when it returns,
    one POST to the persona update path follows, whatever its answer. *)
Theorem persona_update_needs_fetch persona_id st :
  let fetch :=
    fetch_request
      ("https://plus.character.ai/chat/persona/?id=" ++ persona_id) in
  (forall name definition avatar_rel_path,
     edit_persona_arguments_ok name definition = true ->
     match fst (fetch_my_persona persona_id st) with
     | inl _ =>
         calls (snd (edit_persona persona_id name definition
                       avatar_rel_path st))
         = (calls st ++ [fetch])%list
     | inr old_persona =>
         calls (snd (edit_persona persona_id name definition
                       avatar_rel_path st))
         = (calls st
            ++ [fetch;
                post_request persona_update_url
                  (Some (json_dumps (JDict
                     (edit_persona_payload old_persona persona_id name
                        definition avatar_rel_path))))])%list
     end)
  /\
  match fst (fetch_my_persona persona_id st) with
  | inl _ =>
      calls (snd (delete_persona persona_id st))
      = (calls st ++ [fetch])%list
  | inr old_persona =>
      calls (snd (delete_persona persona_id st))
      = (calls st
         ++ [fetch;
             post_request persona_update_url
               (Some (json_dumps (JDict
                  (delete_persona_payload old_persona persona_id))))])%list
  end.
Proof.
  intros fetch.
  pose proof (fetch_my_persona_calls persona_id st) as Hc. fold fetch in Hc.
  destruct (fetch_my_persona persona_id st) as [[e|old] st1] eqn:F;
    cbn [fst snd] in *.
  - split.
    + intros name definition avatar_rel_path E.
      now rewrite (edit_persona_fetch_failed _ _ _ avatar_rel_path _ _ _
                     E F).
    + now rewrite (delete_persona_fetch_failed _ _ _ _ F).
  - split.
    + intros name definition avatar_rel_path E.
      rewrite (edit_persona_run _ _ _ avatar_rel_path _ _ _ E F).
      destruct (respond (world st1) _) as [[detail|a] w];
        cbn [snd after calls]; rewrite Hc; now rewrite <- app_assoc.
    + rewrite (delete_persona_run _ _ _ _ F).
      destruct (respond (world st1) _) as [[detail|a] w];
        cbn [snd after calls]; rewrite Hc; now rewrite <- app_assoc.
Qed.

End PersonaUpdate.

(** ** More on the settings update *)

Section SettingsContract.

Context {R : Requester} {C : Client} {T : Types}.

Lemma keys_dict_store k v d :
  keys (dict_store k v d)
  = match dict_lookup k d with
    | Some _ => keys d
    | None => (keys d ++ [k])%list
    end.
Proof.
  unfold keys. induction d as [|[k' v'] rest IH]; cbn; [reflexivity|].
  destruct (String.eqb k k'); cbn; [reflexivity|].
  rewrite IH. now destruct (dict_lookup k rest).
Qed.

(** The modify step reaches a fixed point at once. *)
Lemma patch_idempotent options d d1 :
  patch options d = Some d1 -> patch options d1 = Some d1.
Proof.
  unfold patch.
  set (d0 := match default_persona_id options with
             | Some id => dict_store "default_persona_id" (JStr id) d
             | None => d
             end).
  assert (Hfix : forall d2,
    dict_lookup "default_persona_id" d2
    = dict_lookup "default_persona_id" d0 ->
    match default_persona_id options with
    | Some id => dict_store "default_persona_id" (JStr id) d2
    | None => d2
    end = d2).
  { intros d2 H. unfold d0 in H.
    destruct (default_persona_id options) as [id|]; [|reflexivity].
    apply dict_store_same. rewrite H. apply dict_lookup_store_same. }
  clearbody d0.
  destruct (persona_override options) as [p|];
    [destruct (character_id options) as [c|]|];
    try (intros [= <-]; now rewrite (Hfix d0 eq_refl)).
  destruct (dict_get "personaOverrides" (JDict []) d0)
    as [| | | | |o] eqn:E; try discriminate.
  intros [= <-].
  rewrite Hfix by (apply dict_lookup_store_other; discriminate).
  rewrite (dict_get_found _ _ _ _ (dict_lookup_store_same _ _ _)).
  now rewrite dict_store_twice, dict_store_twice.
Qed.

(** X13.  [__update_settings] does not turn a failed settings fetch into
    an [UpdateError]: with something to update, a status other than 200
    on the fetch ends it with the [FetchError] of [fetch_my_settings],
    and a failing Requester with that failure; in both cases the GET is
    the only call, nothing is posted. *)
Theorem update_settings_fetch_failure options st :
  something_to_update options = true ->
  (forall r w1,
     respond (world st) (fetch_request settings_url) = (inr r, w1) ->
     status_code r <> 200 ->
     __update_settings options st
     = (inl (FetchError "Cannot fetch your settings."),
        after st (fetch_request settings_url) w1))
  /\
  (forall detail w1,
     respond (world st) (fetch_request settings_url) = (inl detail, w1) ->
     __update_settings options st
     = (inl (RequesterError detail),
        after st (fetch_request settings_url) w1)).
Proof.
  intros Hsome. unfold something_to_update in Hsome.
  apply negb_true_iff in Hsome.
  unfold __update_settings. rewrite Hsome. split.
  - intros r w1 H Hne. unfold bind at 1.
    assert (E : fetch_my_settings st
                = (inl (FetchError "Cannot fetch your settings."),
                   after st (fetch_request settings_url) w1)).
    { unfold fetch_my_settings, bind.
      unfold settings_url, fetch_request in *.
      rewrite (request_answered _ _ _ _ _ H).
      now destruct (Z.eqb_spec (status_code r) 200). }
    now rewrite E.
  - intros detail w1 H. unfold bind at 1.
    assert (E : fetch_my_settings st
                = (inl (RequesterError detail),
                   after st (fetch_request settings_url) w1)).
    { unfold fetch_my_settings, bind.
      unfold settings_url, fetch_request in *.
      now rewrite (request_failed _ _ _ _ _ H). }
    now rewrite E.
Qed.

(** X14.  When the fetched settings hold under [personaOverrides] a
    value that is no object (null, say), setting a persona override
    fails on the item assignment with a [TypeError] before anything is
    posted: the GET is the only call, and [set_persona] reports its
    [SetError]. *)
Theorem update_settings_bad_overrides
    options persona character st r w1 d v :
  persona_override options = Some persona ->
  character_id options = Some character ->
  respond (world st) (fetch_request settings_url) = (inr r, w1) ->
  status_code r = 200 -> json_body r = JDict d ->
  dict_lookup "personaOverrides" d = Some v ->
  (forall overrides, v <> JDict overrides) ->
  __update_settings options st
  = (inl (TypeError (type_of v)), after st (fetch_request settings_url) w1)
  /\ (default_persona_id options = None ->
      voice_override options = None ->
      set_persona character (Some persona) st
      = (inl (SetError "Cannot set persona."),
         after st (fetch_request settings_url) w1)).
Proof.
  intros Hp Hc H H200 Hd Hv Hnd.
  assert (E : __update_settings options st
              = (inl (TypeError (type_of v)),
                 after st (fetch_request settings_url) w1)).
  { unfold __update_settings. rewrite Hp, Hc. cbn [is_None andb].
    rewrite andb_false_r. cbn [andb].
    unfold bind at 1. rewrite (fetch_my_settings_at _ _ _ H H200), Hd.
    assert (Hget : forall d0,
      dict_lookup "personaOverrides" d0 = Some v ->
      (persona_overrides <- get (JDict d0) "personaOverrides" (JDict []) ;;
       persona_overrides <- setitem persona_overrides character
                              (JStr persona) ;;
       setitem (JDict d0) "personaOverrides" persona_overrides)
        (after st (fetch_request settings_url) w1)
      = (inl (TypeError (type_of v)),
         after st (fetch_request settings_url) w1)).
    { intros d0 Hl. unfold bind at 1. cbn [get]. unfold ret.
      rewrite (dict_get_found _ _ _ _ Hl). unfold bind at 1.
      destruct v as [| | | | |o]; try reflexivity.
      now destruct (Hnd o). }
    destruct (default_persona_id options) as [id|].
    - cbn [setitem]. unfold bind at 1, ret. unfold bind at 1.
      rewrite Hget; [reflexivity|].
      rewrite dict_lookup_store_other by discriminate. exact Hv.
    - unfold bind at 1, ret. unfold bind at 1. now rewrite Hget. }
  split; [exact E|]. intros Hdef Hvo.
  destruct options as [dp po vo ci].
  cbn [default_persona_id persona_override voice_override character_id]
    in *.
  subst. rewrite set_persona_run. cbn [or_empty]. now rewrite E.
Qed.

(** X15.  How [__update_settings] ends once the settings are fetched and
    its POST answered: the [settings] of the answer (null if it has
    none) on a 200 whose object body has a true [success]; [UpdateError]
    on a status other than 200 or on an object body without a true
    [success]. *)
Theorem update_settings_outcome options st r w1 d d' a w2 :
  something_to_update options = true ->
  respond (world st) (fetch_request settings_url) = (inr r, w1) ->
  status_code r = 200 -> json_body r = JDict d ->
  patch options d = Some d' ->
  respond w1 (post_request update_settings_url
                (Some (json_dumps (JDict d')))) = (inr a, w2) ->
  (status_code a <> 200 ->
   fst (__update_settings options st)
   = inl (UpdateError "Cannot update account settings."))
  /\ (forall response,
        status_code a = 200 -> json_body a = JDict response ->
        truthy (dict_get "success" (JBool false) response) = true ->
        fst (__update_settings options st)
        = inr (dict_get "settings" JNull response))
  /\ (forall response,
        status_code a = 200 -> json_body a = JDict response ->
        truthy (dict_get "success" (JBool false) response) = false ->
        fst (__update_settings options st)
        = inl (UpdateError "Cannot update account settings.")).
Proof.
  intros Hsome H H200 Hd Hp Ha.
  rewrite (update_settings_run _ _ _ _ _ _ Hsome H H200 Hd Hp). cbv zeta.
  rewrite Ha. cbn [fst]. unfold update_reply. split; [|split].
  - intros Hne. now destruct (Z.eqb_spec (status_code a) 200).
  - intros x Hs Hx Ht. now rewrite Hs, Hx, Ht.
  - intros x Hs Hx Ht. now rewrite Hs, Hx, Ht.
Qed.

(** X16.  [set_default_persona] on fetched settings posts them back with
    [default_persona_id] set to the given id, or to the empty string
    for [None] as [unset_default_persona] passes it: the key is never
    removed, it is appended when missing, and every other key keeps its
    value and place, whatever [personaOverrides] holds.  An accepted
    update makes it return [True]. *)
Theorem set_default_persona_payload persona_id st r w1 d :
  respond (world st) (fetch_request settings_url) = (inr r, w1) ->
  status_code r = 200 -> json_body r = JDict d ->
  exists d',
    calls (snd (set_default_persona persona_id st))
    = (calls st
       ++ [fetch_request settings_url;
           post_request update_settings_url
             (Some (json_dumps (JDict d')))])%list
    /\ dict_lookup "default_persona_id" d'
       = Some (JStr match persona_id with
                    | Some id => id
                    | None => EmptyString
                    end)
    /\ (forall k, k <> "default_persona_id" ->
                  dict_lookup k d' = dict_lookup k d)
    /\ keys d'
       = match dict_lookup "default_persona_id" d with
         | Some _ => keys d
         | None => (keys d ++ ["default_persona_id"])%list
         end
    /\ (forall a w2,
          respond w1 (post_request update_settings_url
                        (Some (json_dumps (JDict d')))) = (inr a, w2) ->
          accepted a ->
          fst (set_default_persona persona_id st) = inr true).
Proof.
  intros H H200 Hd.
  exists (dict_store "default_persona_id" (JStr (or_empty persona_id)) d).
  pose proof (update_settings_run
                {| default_persona_id := Some (or_empty persona_id);
                   persona_override := None;
                   voice_override := None;
                   character_id := None |}
                st r w1 d _ eq_refl H H200 Hd eq_refl) as Hrun.
  cbv zeta in Hrun. rewrite set_default_persona_run, Hrun.
  split; [|split; [|split; [|split]]].
  - destruct (respond w1 _) as [[detail|a] w2];
      [|destruct (update_reply a)]; cbn [snd after calls];
      now rewrite <- app_assoc.
  - rewrite dict_lookup_store_same. now destruct persona_id.
  - intros k Hk. now apply dict_lookup_store_other.
  - apply keys_dict_store.
  - intros a w2 Ha Hacc. rewrite Ha.
    now destruct (accepted_reply a Hacc) as [x ->].
Qed.

(** X17.  The settings update is idempotent on the wire: if a call
    fetched well-formed settings and posted a payload, a repetition of
    the call with the same options that fetches that payload posts it
    again unchanged. *)
Theorem update_settings_idempotent options st r w1 d :
  something_to_update options = true ->
  respond (world st) (fetch_request settings_url) = (inr r, w1) ->
  status_code r = 200 -> json_body r = JDict d ->
  overrides_well_formed d ->
  exists d1,
    calls (snd (__update_settings options st))
    = (calls st
       ++ [fetch_request settings_url;
           post_request update_settings_url
             (Some (json_dumps (JDict d1)))])%list
    /\ forall st2 r2 w3,
         respond (world st2) (fetch_request settings_url) = (inr r2, w3) ->
         status_code r2 = 200 -> json_body r2 = JDict d1 ->
         calls (snd (__update_settings options st2))
         = (calls st2
            ++ [fetch_request settings_url;
                post_request update_settings_url
                  (Some (json_dumps (JDict d1)))])%list.
Proof.
  intros Hsome H H200 Hd Hwf.
  destruct (patch_defined options d Hwf) as [d1 Hp].
  exists d1. split.
  - exact (update_settings_calls _ _ _ _ _ _ Hsome H H200 Hd Hp).
  - intros st2 r2 w3 H2 H2s H2d.
    exact (update_settings_calls _ _ _ _ _ _ Hsome H2 H2s H2d
             (patch_idempotent _ _ _ Hp)).
Qed.

(** X18.  Options that pass the guard but name no field to write, a
    [voice_override] alone or a [persona_override] without its
    [character_id], still make the round trip: the fetched body, object
    or not, is posted back exactly as it came. *)
Theorem update_settings_writes_back_unchanged options st r w1 :
  something_to_update options = true ->
  default_persona_id options = None ->
  persona_override options = None \/ character_id options = None ->
  respond (world st) (fetch_request settings_url) = (inr r, w1) ->
  status_code r = 200 ->
  calls (snd (__update_settings options st))
  = (calls st
     ++ [fetch_request settings_url;
         post_request update_settings_url
           (Some (json_dumps (json_body r)))])%list.
Proof.
  intros Hsome Hdef Hnone H H200.
  unfold something_to_update in Hsome. apply negb_true_iff in Hsome.
  unfold __update_settings. rewrite Hsome, Hdef.
  unfold bind at 1. rewrite (fetch_my_settings_at _ _ _ H H200).
  unfold bind at 1. unfold ret at 1. unfold bind at 1.
  assert (E : forall s,
    match persona_override options, character_id options with
    | Some persona, Some character =>
        persona_overrides <-
          get (json_body r) "personaOverrides" (JDict []) ;;
        persona_overrides <-
          setitem persona_overrides character (JStr persona) ;;
        setitem (json_body r) "personaOverrides" persona_overrides
    | _, _ => ret (json_body r)
    end s = (inr (json_body r), s)).
  { intros s. destruct Hnone as [-> | ->]; [reflexivity|].
    now destruct (persona_override options). }
  rewrite E.
  unfold bind, request, post_request, update_settings_url.
  match goal with
  | |- context [respond ?w ?rq] =>
      destruct (respond w rq) as [[detail|a] w2]
  end; cbn [snd after calls].
  - now rewrite <- app_assoc.
  - destruct (status_code a =? 200);
      [destruct (json_body a) as [| | | | |x]; cbn [get]; unfold ret, raise;
       try destruct (truthy (dict_get "success" (JBool false) x))|];
      cbn [snd calls]; now rewrite <- app_assoc.
Qed.

End SettingsContract.

(** ** What holds of every call *)

Section Invariants.

Context {R : Requester} {C : Client} {T : Types}.

Lemma quiet_ret {A} (a : A) : quiet (ret a).
Proof. intros st. reflexivity. Qed.

Lemma quiet_raise {A} (e : exn) : quiet (raise (A := A) e).
Proof. intros st. reflexivity. Qed.

Lemma quiet_get v k default : quiet (get v k default).
Proof. intros st. destruct v; reflexivity. Qed.

Lemma quiet_setitem v k x : quiet (setitem v k x).
Proof. intros st. destruct v; reflexivity. Qed.

Lemma quiet_iterate v : quiet (iterate v).
Proof. intros st. destruct v; reflexivity. Qed.

Lemma quiet_bind {A B} (m : M A) (k : A -> M B) :
  quiet m -> (forall a, quiet (k a)) -> quiet (bind m k).
Proof.
  intros Hm Hk st. unfold bind. specialize (Hm st).
  destruct (m st) as [[e|a] st']; cbn [snd] in *; subst st';
    [reflexivity|apply Hk].
Qed.

Lemma quiet_status_ok_with_persona response :
  quiet (status_ok_with_persona response).
Proof.
  unfold status_ok_with_persona.
  apply quiet_bind; [apply quiet_get|]. intros status.
  destruct (eq_str status "OK"); [|apply quiet_ret].
  apply quiet_bind; [apply quiet_get|]. intros persona. apply quiet_ret.
Qed.

Lemma keeps_quiet {A} P (m : M A) : quiet m -> keeps P m.
Proof. intros Hq st H. now rewrite Hq. Qed.

Lemma keeps_request P u o :
  P {| url := u; options := o |} -> keeps P (request u o).
Proof.
  intros HP st H. rewrite request_logged. apply Forall_app. split; auto.
Qed.

Lemma keeps_bind {A B} P (m : M A) (k : A -> M B) :
  keeps P m -> (forall a, keeps P (k a)) -> keeps P (bind m k).
Proof.
  intros Hm Hk st H. unfold bind. specialize (Hm st H).
  destruct (m st) as [[e|a] st']; cbn [snd] in *; [assumption|].
  now apply Hk.
Qed.

Lemma keeps_try {A} P (m : M A) e : keeps P m -> keeps P (try_except m e).
Proof.
  intros Hm st H. unfold try_except. specialize (Hm st H).
  destruct (m st) as [[e'|a] st']; assumption.
Qed.

Lemma at_most_quiet {A} n (m : M A) : quiet m -> at_most n m.
Proof.
  intros Hq st. exists []. rewrite Hq, app_nil_r. split; [reflexivity|].
  cbn. lia.
Qed.

Lemma at_most_request u o : at_most 1 (request u o).
Proof.
  intros st. eexists. split; [apply request_logged|]. cbn. lia.
Qed.

Lemma at_most_bind {A B} n k (m : M A) (f : A -> M B) :
  at_most n m -> (forall a, at_most k (f a)) -> at_most (n + k) (bind m f).
Proof.
  intros Hm Hf st. unfold bind. destruct (Hm st) as (new & Hc & Hl).
  destruct (m st) as [[e|a] st']; cbn [snd] in *.
  - exists new. split; [assumption|lia].
  - destruct (Hf a st') as (new' & Hc' & Hl').
    exists (new ++ new')%list. rewrite Hc', Hc, app_assoc.
    split; [reflexivity|]. rewrite length_app. lia.
Qed.

Lemma at_most_try {A} n (m : M A) e :
  at_most n m -> at_most n (try_except m e).
Proof.
  intros Hm st. unfold try_except. destruct (Hm st) as (new & Hc & Hl).
  exists new. destruct (m st) as [[e'|a] st']; auto.
Qed.

Lemma at_most_one_call {A} (m : M A) rq : makes_one_call m rq -> at_most 1 m.
Proof.
  intros H st. exists [rq]. split; [apply H|]. cbn. lia.
Qed.

Lemma authenticated_fetch u :
  authenticated {| url := u; options := fetch_options |}.
Proof. split; [reflexivity|]. now left. Qed.

Lemma authenticated_post u b :
  authenticated {| url := u; options := post_options b |}.
Proof. split; [reflexivity|]. now right. Qed.

End Invariants.

Ltac quiet_step :=
  first
    [ apply quiet_ret | apply quiet_raise | apply quiet_get
    | apply quiet_setitem | apply quiet_iterate
    | apply quiet_status_ok_with_persona
    | apply quiet_bind; [|intros ?]
    | match goal with
      | |- quiet (if ?b then _ else _) => destruct b
      | |- quiet (match ?x with _ => _ end) => destruct x
      end ].

Ltac keeps_step :=
  first
    [ apply keeps_quiet; solve [repeat quiet_step]
    | apply keeps_request;
      first [apply authenticated_fetch | apply authenticated_post]
    | apply keeps_try
    | apply keeps_bind; [|intros ?]
    | match goal with
      | |- keeps _ (if ?b then _ else _) => destruct b
      | |- keeps _ (match ?x with _ => _ end) => destruct x
      end ].

Section EveryCall.

Context {R : Requester} {C : Client} {T : Types}.

Lemma keeps_fetch_my_settings : keeps authenticated fetch_my_settings.
Proof. unfold fetch_my_settings. repeat keeps_step. Qed.

Lemma keeps_fetch_my_persona persona_id :
  keeps authenticated (fetch_my_persona persona_id).
Proof. unfold fetch_my_persona. repeat keeps_step. Qed.

Lemma keeps_update_settings options :
  keeps authenticated (__update_settings options).
Proof.
  unfold __update_settings.
  destruct (is_None (default_persona_id options)
            && is_None (persona_override options)
            && is_None (voice_override options)).
  - apply keeps_quiet, quiet_raise.
  - apply keeps_bind; [apply keeps_fetch_my_settings|]. intros settings.
    cbv zeta. repeat keeps_step.
Qed.

Lemma keeps_set_default_persona persona_id :
  keeps authenticated (set_default_persona persona_id).
Proof.
  unfold set_default_persona. apply keeps_try. cbv zeta.
  apply keeps_bind; [apply keeps_update_settings|]. intros _.
  apply keeps_quiet, quiet_ret.
Qed.

Lemma keeps_set_persona character persona_id :
  keeps authenticated (set_persona character persona_id).
Proof.
  unfold set_persona. apply keeps_try. cbv zeta.
  apply keeps_bind; [apply keeps_update_settings|]. intros _.
  apply keeps_quiet, quiet_ret.
Qed.

Lemma keeps_set_voice character voice_id :
  keeps authenticated (set_voice character voice_id).
Proof. unfold set_voice. cbv zeta. repeat keeps_step. Qed.

Lemma keeps_edit_persona persona_id name definition avatar_rel_path :
  keeps authenticated
    (edit_persona persona_id name definition avatar_rel_path).
Proof.
  unfold edit_persona.
  destruct (nonempty name && ((len name <? 3) || (len name >? 20)));
    [apply keeps_quiet, quiet_raise|].
  destruct (nonempty definition && (len definition >? 728));
    [apply keeps_quiet, quiet_raise|].
  apply keeps_bind;
    [apply keeps_try, keeps_fetch_my_persona|]. intros old_persona.
  cbv zeta. repeat keeps_step.
Qed.

Lemma keeps_delete_persona persona_id :
  keeps authenticated (delete_persona persona_id).
Proof.
  unfold delete_persona.
  apply keeps_bind;
    [apply keeps_try, keeps_fetch_my_persona|]. intros old_persona.
  cbv zeta. repeat keeps_step.
Qed.

(** X19.  Every call any operation of the facade makes carries the
    Client's headers and is either a call without method and body (a
    GET) or a POST: run from a log of such calls, each operation leaves
    a log of such calls, however it ends. *)
Theorem calls_are_authenticated :
  keeps authenticated fetch_me
  /\ keeps authenticated fetch_my_settings
  /\ keeps authenticated fetch_my_followers
  /\ keeps authenticated fetch_my_following
  /\ (forall persona_id, keeps authenticated (fetch_my_persona persona_id))
  /\ keeps authenticated fetch_my_personas
  /\ keeps authenticated fetch_my_characters
  /\ keeps authenticated fetch_my_upvoted_characters
  /\ keeps authenticated fetch_my_voices
  /\ (forall options, keeps authenticated (__update_settings options))
  /\ (forall name username bio avatar_rel_path,
        keeps authenticated (edit_account name username bio avatar_rel_path))
  /\ (forall uuid name definition avatar_rel_path,
        keeps authenticated
          (create_persona uuid name definition avatar_rel_path))
  /\ (forall persona_id name definition avatar_rel_path,
        keeps authenticated
          (edit_persona persona_id name definition avatar_rel_path))
  /\ (forall persona_id, keeps authenticated (delete_persona persona_id))
  /\ (forall persona_id,
        keeps authenticated (set_default_persona persona_id))
  /\ keeps authenticated unset_default_persona
  /\ (forall character persona_id,
        keeps authenticated (set_persona character persona_id))
  /\ (forall character, keeps authenticated (unset_persona character))
  /\ (forall character voice_id,
        keeps authenticated (set_voice character voice_id))
  /\ (forall character, keeps authenticated (unset_voice character)).
Proof.
  repeat split; intros.
  - unfold fetch_me. repeat keeps_step.
  - apply keeps_fetch_my_settings.
  - unfold fetch_my_followers. repeat keeps_step.
  - unfold fetch_my_following. repeat keeps_step.
  - apply keeps_fetch_my_persona.
  - unfold fetch_my_personas. repeat keeps_step.
  - unfold fetch_my_characters. repeat keeps_step.
  - unfold fetch_my_upvoted_characters. repeat keeps_step.
  - unfold fetch_my_voices. repeat keeps_step.
  - apply keeps_update_settings.
  - unfold edit_account. cbv zeta. repeat keeps_step.
  - unfold create_persona. cbv zeta. repeat keeps_step.
  - apply keeps_edit_persona.
  - apply keeps_delete_persona.
  - apply keeps_set_default_persona.
  - apply keeps_set_default_persona.
  - apply keeps_set_persona.
  - apply keeps_set_persona.
  - apply keeps_set_voice.
  - apply keeps_set_voice.
Qed.

End EveryCall.

Ltac at_most_post :=
  cbv zeta; apply (at_most_bind 1 0);
  [apply at_most_request
  |intros ?; apply at_most_quiet; solve [repeat quiet_step]].

Section CallCount.

Context {R : Requester} {C : Client} {T : Types}.

Lemma at_most_update_settings options :
  at_most 2 (__update_settings options).
Proof.
  unfold __update_settings.
  destruct (is_None (default_persona_id options)
            && is_None (persona_override options)
            && is_None (voice_override options)).
  - apply at_most_quiet, quiet_raise.
  - apply (at_most_bind 1 1);
      [exact (at_most_one_call _ _ fetch_my_settings_calls)|].
    intros settings.
    apply (at_most_bind 0 1);
      [apply at_most_quiet; solve [repeat quiet_step]|].
    intros settings1.
    apply (at_most_bind 0 1);
      [apply at_most_quiet; solve [repeat quiet_step]|].
    intros settings2. at_most_post.
Qed.

Lemma at_most_set_default_persona persona_id :
  at_most 2 (set_default_persona persona_id).
Proof.
  unfold set_default_persona. apply at_most_try. cbv zeta.
  apply (at_most_bind 2 0); [apply at_most_update_settings|].
  intros _. apply at_most_quiet, quiet_ret.
Qed.

Lemma at_most_set_persona character persona_id :
  at_most 2 (set_persona character persona_id).
Proof.
  unfold set_persona. apply at_most_try. cbv zeta.
  apply (at_most_bind 2 0); [apply at_most_update_settings|].
  intros _. apply at_most_quiet, quiet_ret.
Qed.

Lemma at_most_edit_persona persona_id name definition avatar_rel_path :
  at_most 2 (edit_persona persona_id name definition avatar_rel_path).
Proof.
  unfold edit_persona.
  destruct (nonempty name && ((len name <? 3) || (len name >? 20)));
    [apply at_most_quiet, quiet_raise|].
  destruct (nonempty definition && (len definition >? 728));
    [apply at_most_quiet, quiet_raise|].
  apply (at_most_bind 1 1);
    [apply at_most_try;
     exact (at_most_one_call _ _ (fetch_my_persona_calls persona_id))|].
  intros old_persona. at_most_post.
Qed.

Lemma at_most_delete_persona persona_id :
  at_most 2 (delete_persona persona_id).
Proof.
  unfold delete_persona.
  apply (at_most_bind 1 1);
    [apply at_most_try;
     exact (at_most_one_call _ _ (fetch_my_persona_calls persona_id))|].
  intros old_persona. at_most_post.
Qed.

Lemma at_most_edit_account name username bio avatar_rel_path :
  at_most 1 (edit_account name username bio avatar_rel_path).
Proof.
  unfold edit_account.
  destruct ((len username <? 2) || (len name >? 20));
    [apply at_most_quiet, quiet_raise|].
  destruct ((len name <? 2) || (len name >? 50));
    [apply at_most_quiet, quiet_raise|].
  destruct (len bio >? 500); [apply at_most_quiet, quiet_raise|].
  at_most_post.
Qed.

Lemma at_most_create_persona uuid name definition avatar_rel_path :
  at_most 1 (create_persona uuid name definition avatar_rel_path).
Proof.
  unfold create_persona.
  destruct ((len name <? 3) || (len name >? 20));
    [apply at_most_quiet, quiet_raise|].
  destruct (nonempty definition && (len definition >? 728));
    [apply at_most_quiet, quiet_raise|].
  at_most_post.
Qed.

Lemma at_most_set_voice character voice_id :
  at_most 1 (set_voice character voice_id).
Proof. unfold set_voice. at_most_post. Qed.

(** X20.  No operation of the facade makes more than two calls, and
    none drops a call from the log: the nine fetches, [edit_account],
    [create_persona] and the voice setters make at most one, the
    settings update, its four setters, [edit_persona] and
    [delete_persona] at most two, however they end. *)
Theorem calls_are_bounded :
  (at_most 1 fetch_me
   /\ at_most 1 fetch_my_settings
   /\ at_most 1 fetch_my_followers
   /\ at_most 1 fetch_my_following
   /\ (forall persona_id, at_most 1 (fetch_my_persona persona_id))
   /\ at_most 1 fetch_my_personas
   /\ at_most 1 fetch_my_characters
   /\ at_most 1 fetch_my_upvoted_characters
   /\ at_most 1 fetch_my_voices
   /\ (forall name username bio avatar_rel_path,
         at_most 1 (edit_account name username bio avatar_rel_path))
   /\ (forall uuid name definition avatar_rel_path,
         at_most 1 (create_persona uuid name definition avatar_rel_path))
   /\ (forall character voice_id, at_most 1 (set_voice character voice_id))
   /\ (forall character, at_most 1 (unset_voice character)))
  /\
  ((forall options, at_most 2 (__update_settings options))
   /\ (forall persona_id, at_most 2 (set_default_persona persona_id))
   /\ at_most 2 unset_default_persona
   /\ (forall character persona_id,
         at_most 2 (set_persona character persona_id))
   /\ (forall character, at_most 2 (unset_persona character))
   /\ (forall persona_id name definition avatar_rel_path,
         at_most 2 (edit_persona persona_id name definition
                      avatar_rel_path))
   /\ (forall persona_id, at_most 2 (delete_persona persona_id))).
Proof.
  split; repeat split; intros.
  - exact (at_most_one_call _ _ fetch_me_calls).
  - exact (at_most_one_call _ _ fetch_my_settings_calls).
  - exact (at_most_one_call _ _ fetch_my_followers_calls).
  - exact (at_most_one_call _ _ fetch_my_following_calls).
  - exact (at_most_one_call _ _ (fetch_my_persona_calls persona_id)).
  - exact (at_most_one_call _ _ fetch_my_personas_calls).
  - exact (at_most_one_call _ _ fetch_my_characters_calls).
  - exact (at_most_one_call _ _ fetch_my_upvoted_characters_calls).
  - exact (at_most_one_call _ _ fetch_my_voices_calls).
  - apply at_most_edit_account.
  - apply at_most_create_persona.
  - apply at_most_set_voice.
  - apply at_most_set_voice.
  - apply at_most_update_settings.
  - apply at_most_set_default_persona.
  - apply at_most_set_default_persona.
  - apply at_most_set_persona.
  - apply at_most_set_persona.
  - apply at_most_edit_persona.
  - apply at_most_delete_persona.
Qed.

(** X21.  [set_voice] makes exactly one call, however it ends: with a
    non-empty voice id the POST to the [update] path carrying the id,
    and with [None] or the empty string the POST to the [delete] path
    without a body, so that an empty voice id unsets the override. *)
Theorem set_voice_one_call character voice_id st :
  calls (snd (set_voice character voice_id st))
  = (calls st
     ++ [match voice_id with
         | Some (String c id) =>
             post_request
               ("https://plus.character.ai/chat/character/" ++ character
                  ++ "/voice_override/update/")
               (Some (json_dumps
                  (JDict [("voice_id", JStr (String c id))])))
         | _ =>
             post_request
               ("https://plus.character.ai/chat/character/" ++ character
                  ++ "/voice_override/delete/")
               None
         end])%list
  /\ set_voice character (Some EmptyString) st = unset_voice character st.
Proof.
  split; [|reflexivity].
  rewrite set_voice_run. cbv zeta. unfold voice_request.
  destruct voice_id as [[|c id]|]; cbn [given nonempty or_empty];
    destruct (respond (world st) _) as [[detail|a] w]; reflexivity.
Qed.

End CallCount.

(** * The further properties on the doubles *)

Lemma edit_account_validation_witness :
  snd (edit_account (R := Double.scripted) "a" "ab" EmptyString EmptyString
         (Double.start [Double.status 200]))
  = Double.start [Double.status 200].
Proof.
  apply (proj2 (edit_account_validation (R := Double.scripted)
                  "a" "ab" EmptyString EmptyString
                  (Double.start [Double.status 200]))).
  right. left. reflexivity.
Defined.

Lemma edit_account_payload_witness :
  exists info,
    keys info = ["avatar_type"; "bio"; "name"; "username"; "avatar_rel_path"]
    /\ dict_lookup "avatar_type" info = Some (JStr "UPLOADED").
Proof.
  destruct (edit_account_payload (R := Double.scripted)
              "Al" "al" EmptyString "al.png" (Double.start []) eq_refl)
    as (info & _ & Hkeys & Htype & _).
  exists info. split; assumption.
Defined.

Lemma edit_account_outcome_witness :
  fst (edit_account (R := Double.scripted) "Al" "al" EmptyString EmptyString
         (Double.start [Double.ok (JDict [("status", JStr "OK")])]))
  = inr true.
Proof.
  destruct (edit_account_outcome (R := Double.scripted)
              "Al" "al" EmptyString EmptyString
              (Double.start [Double.ok (JDict [("status", JStr "OK")])])
              eq_refl)
    as (info & _ & H).
  apply (proj1 (proj2 (H _ _ eq_refl)) _ eq_refl eq_refl eq_refl).
Defined.

Lemma create_persona_validation_witness :
  snd (create_persona (R := Double.scripted) "1234" "Al" EmptyString
         EmptyString (Double.start [Double.status 200]))
  = Double.start [Double.status 200].
Proof.
  apply (proj2 (create_persona_validation (R := Double.scripted)
                  "1234" "Al" EmptyString EmptyString
                  (Double.start [Double.status 200]))).
  left. reflexivity.
Defined.

Lemma create_persona_payload_witness :
  exists payload,
    dict_lookup "identifier" payload = Some (JStr "id:1234")
    /\ dict_lookup "title" payload = Some (JStr "Albert").
Proof.
  assert (Hname : 3 <= len "Albert" <= 20) by (split; discriminate).
  assert (Hdefinition : len "A sailor." <= 728) by discriminate.
  destruct (create_persona_payload (R := Double.scripted)
              "1234" "Albert" "A sailor." EmptyString (Double.start [])
              Hname Hdefinition)
    as (payload & _ & _ & Hid & _ & Htitle & _).
  exists payload. split; assumption.
Defined.

Lemma create_persona_outcome_witness :
  fst (create_persona (R := Double.scripted) "1234" "Albert" "A sailor."
         EmptyString
         (Double.start
            [Double.ok (JDict [("status", JStr "OK");
                               ("persona", Double.sailor)])]))
  = inr (Double.new_persona Double.sailor).
Proof.
  assert (Hname : 3 <= len "Albert" <= 20) by (split; discriminate).
  assert (Hdefinition : len "A sailor." <= 728) by discriminate.
  destruct (create_persona_outcome (R := Double.scripted)
              "1234" "Albert" "A sailor." EmptyString
              (Double.start
                 [Double.ok (JDict [("status", JStr "OK");
                                    ("persona", Double.sailor)])])
              Hname Hdefinition)
    as (payload & _ & H).
  apply (proj1 (proj2 (H _ _ eq_refl)) _ Double.sailor
           eq_refl eq_refl eq_refl eq_refl).
  discriminate.
Defined.

Lemma fetch_my_persona_characterised_witness :
  fst (fetch_my_persona (R := Double.scripted) "p1"
         (Double.start [Double.ok (JDict [("persona", JDict [])])]))
  = inl (FetchError
      "Cannot fetch your persona. Maybe persona does not exist?").
Proof.
  apply (proj2 (fetch_my_persona_characterised (R := Double.scripted) "p1"
                  (Double.start [Double.ok (JDict [("persona", JDict [])])]))
           _ _ _ (JDict []) eq_refl eq_refl eq_refl eq_refl eq_refl).
Defined.

Lemma collections_not_iterable_witness :
  fst (run (R := Double.scripted) fetch_my_voices
         [Double.ok (JDict [("voices", JNull)])])
  = inl (TypeError NoneType).
Proof.
  destruct (collections_not_iterable (R := Double.scripted))
    as (_ & _ & _ & Hvoices).
  exact (f_equal fst
           (Hvoices [Double.ok (JDict [("voices", JNull)])] _ _ _ JNull
              eq_refl eq_refl eq_refl eq_refl eq_refl)).
Defined.

Lemma edit_persona_validation_witness :
  snd (edit_persona (R := Double.scripted) "p1" "Al" EmptyString EmptyString
         (Double.start Double.persona_then_ok))
  = Double.start Double.persona_then_ok.
Proof.
  apply (proj2 (edit_persona_validation (R := Double.scripted)
                  "p1" "Al" EmptyString EmptyString
                  (Double.start Double.persona_then_ok))).
  left. split; reflexivity.
Defined.

Lemma edit_persona_outcome_witness :
  fst (edit_persona (R := Double.scripted) "p1" EmptyString "A pirate."
         EmptyString (Double.start Double.persona_then_ok))
  = inr (new_Persona Double.sailor).
Proof.
  apply (proj1 (proj2 (edit_persona_outcome (R := Double.scripted)
                         "p1" EmptyString "A pirate." EmptyString
                         (Double.start Double.persona_then_ok) _ _ _ _
                         eq_refl eq_refl eq_refl))
           _ Double.sailor eq_refl eq_refl eq_refl eq_refl).
  discriminate.
Defined.

Lemma persona_update_needs_fetch_witness :
  calls (snd (delete_persona (R := Double.scripted) "p1"
                (Double.start [Double.status 404; Double.status 200])))
  = [fetch_request "https://plus.character.ai/chat/persona/?id=p1"].
Proof.
  exact (proj2 (persona_update_needs_fetch (R := Double.scripted) "p1"
                  (Double.start [Double.status 404; Double.status 200]))).
Defined.

Lemma update_settings_fetch_failure_witness :
  fst (__update_settings (R := Double.scripted)
         {| default_persona_id := Some "p1";
            persona_override := None;
            voice_override := None;
            character_id := None |}
         (Double.start [Double.status 500]))
  = inl (FetchError "Cannot fetch your settings.").
Proof.
  refine (f_equal fst
            (proj1 (update_settings_fetch_failure (R := Double.scripted)
                      {| default_persona_id := Some "p1";
                         persona_override := None;
                         voice_override := None;
                         character_id := None |}
                      (Double.start [Double.status 500]) eq_refl)
               _ _ eq_refl _)).
  discriminate.
Defined.

Lemma update_settings_bad_overrides_witness :
  fst (set_persona (R := Double.scripted) "c1" (Some "p1")
         (Double.start
            [Double.ok (JDict [("personaOverrides", JNull)]);
             Double.success (JBool true)]))
  = inl (SetError "Cannot set persona.")
  /\ calls (snd (set_persona (R := Double.scripted) "c1" (Some "p1")
                   (Double.start
                      [Double.ok (JDict [("personaOverrides", JNull)]);
                       Double.success (JBool true)])))
     = [fetch_request settings_url].
Proof.
  assert (Hnull : forall overrides, JNull <> JDict overrides)
    by discriminate.
  rewrite (proj2 (update_settings_bad_overrides (R := Double.scripted)
                    {| default_persona_id := None;
                       persona_override := Some "p1";
                       voice_override := None;
                       character_id := Some "c1" |}
                    "p1" "c1"
                    (Double.start
                       [Double.ok (JDict [("personaOverrides", JNull)]);
                        Double.success (JBool true)])
                    _ _ _ JNull
                    eq_refl eq_refl eq_refl eq_refl eq_refl eq_refl Hnull)
             eq_refl eq_refl).
  split; reflexivity.
Defined.

Lemma update_settings_outcome_witness :
  fst (__update_settings (R := Double.settings_server)
         {| default_persona_id := Some "p1";
            persona_override := None;
            voice_override := None;
            character_id := None |}
         (Double.serving Double.settings_p0))
  = inr (JDict [("default_persona_id", JStr "p1");
                ("personaOverrides", JDict [])]).
Proof.
  apply (proj1 (proj2 (update_settings_outcome
                         (R := Double.settings_server)
                         {| default_persona_id := Some "p1";
                            persona_override := None;
                            voice_override := None;
                            character_id := None |}
                         (Double.serving Double.settings_p0)
                         _ _ _ _ _ _
                         eq_refl eq_refl eq_refl eq_refl eq_refl eq_refl))
           _ eq_refl eq_refl eq_refl).
Defined.

Lemma set_default_persona_payload_witness :
  exists d',
    dict_lookup "default_persona_id" d' = Some (JStr EmptyString)
    /\ keys d' = ["default_persona_id"; "personaOverrides"].
Proof.
  destruct (set_default_persona_payload (R := Double.settings_server)
              None (Double.serving Double.settings_p0)
              _ _ _ eq_refl eq_refl eq_refl)
    as (d' & _ & Hdefault & _ & Hkeys & _).
  exists d'. split; assumption.
Defined.

Lemma update_settings_idempotent_witness :
  exists d1,
    calls (snd (__update_settings (R := Double.settings_server)
                  {| default_persona_id := None;
                     persona_override := Some "p1";
                     voice_override := None;
                     character_id := Some "c1" |}
                  (Double.serving Double.settings_p0)))
    = [fetch_request settings_url;
       post_request update_settings_url (Some (json_dumps (JDict d1)))]
    /\ dict_lookup "personaOverrides" d1 = Some (JDict [("c1", JStr "p1")]).
Proof.
  assert (Hwf : overrides_well_formed
                  [("default_persona_id", JStr "p0");
                   ("personaOverrides", JDict [])]).
  { intros v [= <-]. now exists []. }
  destruct (update_settings_idempotent (R := Double.settings_server)
              {| default_persona_id := None;
                 persona_override := Some "p1";
                 voice_override := None;
                 character_id := Some "c1" |}
              (Double.serving Double.settings_p0)
              _ _ _ eq_refl eq_refl eq_refl eq_refl Hwf)
    as (d1 & Hcalls & _).
  exists d1. split; [exact Hcalls|].
  cbv in Hcalls. injection Hcalls as <-. reflexivity.
Defined.

Lemma update_settings_writes_back_unchanged_witness :
  calls (snd (__update_settings (R := Double.settings_server)
                {| default_persona_id := None;
                   persona_override := Some "p1";
                   voice_override := None;
                   character_id := None |}
                (Double.serving Double.settings_p0)))
  = [fetch_request settings_url;
     post_request update_settings_url
       (Some (json_dumps Double.settings_p0))].
Proof.
  apply (update_settings_writes_back_unchanged
           (R := Double.settings_server)
           {| default_persona_id := None;
              persona_override := Some "p1";
              voice_override := None;
              character_id := None |}
           (Double.serving Double.settings_p0) _ _
           eq_refl eq_refl (or_intror eq_refl) eq_refl eq_refl).
Defined.

Lemma calls_are_authenticated_witness :
  Forall authenticated
    (calls (snd (delete_persona (R := Double.scripted) "p1"
                   (Double.start Double.persona_then_ok)))).
Proof.
  destruct (calls_are_authenticated (R := Double.scripted))
    as (_ & _ & _ & _ & _ & _ & _ & _ & _ & _ & _ & _ & _ & Hdelete & _).
  apply (Hdelete "p1" (Double.start Double.persona_then_ok)).
  constructor.
Defined.
